(** * Verified-name reconciliation (edx_name_affirmation)

    A shallow embedding of [edx_name_affirmation/tasks.py]: the two celery
    tasks [idv_update_verified_name_task] and
    [proctoring_update_verified_name_task], run against an explicit model of
    the [VerifiedName] table, the [User] table and the logger.

    The table is a list of rows; the primary key of a row is its position, so
    primary keys are unique by construction and [save] is an update by index.
    Query sets are lazy, as in the ORM: a query set is a WHERE clause plus an
    ordering flag, and it reads the table only when it is fetched. *)

From stdpp Require Import base list strings sorting.

(** ** Data model *)

(** Modelled from the spec: [statuses.py] is not among the sources.
    [VerifiedNameStatus] is the closed set of the four statuses. *)
Inductive VerifiedNameStatus := PENDING | SUBMITTED | APPROVED | DENIED.

#[global] Instance VerifiedNameStatus_eq_dec : EqDecision VerifiedNameStatus.
Proof. solve_decision. Defined.

(** Modelled from the spec: [models.py] is not among the sources. One row of
    the [VerifiedName] table, without its primary key: [user] is the id of
    the owning user, each attempt id is optional, [created] is the creation
    time. *)
Record VerifiedName := mkVerifiedName {
  user : nat;
  verified_name : string;
  profile_name : string;
  verification_attempt_id : option nat;
  proctored_exam_attempt_id : option nat;
  status : VerifiedNameStatus;
  created : nat
}.

#[global] Instance VerifiedName_eq_dec : EqDecision VerifiedName.
Proof. solve_decision. Defined.

(** Assignment to a field of a model instance. *)
Definition set_status (s : VerifiedNameStatus) (r : VerifiedName) : VerifiedName :=
  mkVerifiedName (user r) (verified_name r) (profile_name r)
    (verification_attempt_id r) (proctored_exam_attempt_id r) s (created r).

Definition set_verification_attempt_id (a : option nat) (r : VerifiedName)
  : VerifiedName :=
  mkVerifiedName (user r) (verified_name r) (profile_name r)
    a (proctored_exam_attempt_id r) (status r) (created r).

(** A model instance as a query returns it: primary key and fields. *)
Definition Instance_ : Type := nat * VerifiedName.

(** Python truthiness of a string: the empty string is falsy. *)
Definition truthy (s : string) : bool :=
  match s with EmptyString => false | String _ _ => true end.

(** ** Logging *)

Inductive Level := INFO | WARNING | ERROR.

#[global] Instance Level_eq_dec : EqDecision Level.
Proof. solve_decision. Defined.

(** The messages of [tasks.py], by the arguments they are formatted with. *)
Inductive Message :=
| IdvTaskStarted (user_id attempt_id : nat) (st : VerifiedNameStatus)
| UpdatedToVerificationAttemptId (user_id attempt_id : nat)
| UpdatedIdvStatus (user_id attempt_id : nat) (st : VerifiedNameStatus)
| CreatedNoMatchFound (user_id : nat) (st : VerifiedNameStatus) (attempt_id : nat)
| FullNameNotApproved (attempt_id name_id : nat)
| UpdatedProctoredStatus (user_id attempt_id : nat) (st : VerifiedNameStatus)
| CreatedForProctoredAttempt (user_id : nat) (st : VerifiedNameStatus) (attempt_id : nat)
| CannotCreate (user_id attempt_id : nat).

Definition LogRecord : Type := Level * Message.

(** ** The world the tasks run in *)

(** A [post_save] signal: the primary key of the saved instance and whether
    the save created it. *)
Definition Signal : Type := nat * bool.

Record World := mkWorld {
  auth_user : list nat;              (* ids of the rows of the User table *)
  table : list VerifiedName;         (* the VerifiedName table, by primary key *)
  logged : list LogRecord;           (* log records, oldest first *)
  post_save : list Signal            (* post_save signals sent, oldest first *)
}.

Definition with_table (t : list VerifiedName) (w : World) : World :=
  mkWorld (auth_user w) t (logged w) (post_save w).

Definition with_logged (l : list LogRecord) (w : World) : World :=
  mkWorld (auth_user w) (table w) l (post_save w).

Definition with_post_save (sg : list Signal) (w : World) : World :=
  mkWorld (auth_user w) (table w) (logged w) sg.

(** Exceptions. [UserDoesNotExist] is the ORM's. Modelled from the spec:
    [exceptions.py] is not among the sources; its four classes, as the tests
    import them, are raised by the API only. *)
Inductive Exn :=
| UserDoesNotExist
| VerifiedNameDoesNotExist
| VerifiedNameEmptyString (field : string) (user_id : nat)
| VerifiedNameMultipleAttemptIds
| VerifiedNameAttemptIdNotGiven.

(** A computation reads and writes the world and either returns or raises;
    what was written before an exception stays written. *)
Definition M (A : Type) : Type := World → (Exn + A) * World.

Definition ret {A} (a : A) : M A := λ w, (inr a, w).

Definition raise {A} (e : Exn) : M A := λ w, (inl e, w).

Definition bind {A B} (m : M A) (k : A → M B) : M B :=
  λ w, match m w with
       | (inr a, w') => k a w'
       | (inl e, w') => (inl e, w')
       end.

Notation "'let*' x ':=' m 'in' k" := (bind m (λ x, k))
  (at level 10, x name, m at level 100, k at level 200,
   format "'[' 'let*'  x  :=  m  'in'  '/' k ']'").
Notation "m 'then_' k" := (bind m (λ _, k))
  (at level 100, right associativity).

Definition get_table : M (list VerifiedName) := λ w, (inr (table w), w).

Definition put_table (t : list VerifiedName) : M unit :=
  λ w, (inr tt, with_table t w).

Definition emit (lv : Level) (msg : Message) : M unit :=
  λ w, (inr tt, with_logged (logged w ++ [(lv, msg)]) w).

Definition send_post_save (pk : nat) (created_ : bool) : M unit :=
  λ w, (inr tt, with_post_save (post_save w ++ [(pk, created_)]) w).

(** [for x in xs: body(x)] *)
Fixpoint for_each {A} (xs : list A) (body : A → M unit) : M unit :=
  match xs with
  | [] => ret tt
  | x :: xs' => body x then_ for_each xs' body
  end.

(** ** The ORM *)

(** A query set: its WHERE clause and whether [order_by('-created')] was
    applied. Nothing is read until the query set is fetched. *)
Record QuerySet := mkQuerySet {
  qs_where : VerifiedName → bool;
  qs_newest_first : bool
}.

(** [VerifiedName.objects.filter(...)] *)
Definition objects_filter (p : VerifiedName → bool) : QuerySet :=
  mkQuerySet p false.

(** [qs.filter(...)]: the conditions are conjoined, the ordering is kept. *)
Definition filter_ (q : QuerySet) (p : VerifiedName → bool) : QuerySet :=
  mkQuerySet (λ r, qs_where q r && p r) (qs_newest_first q).

(** [qs.order_by('-created')] *)
Definition order_by_created_desc (q : QuerySet) : QuerySet :=
  mkQuerySet (qs_where q) true.

(** The order of [-created]: [x] may stand before [y]. *)
Definition newer_first (x y : Instance_) : Prop := created y.2 ≤ created x.2.

#[global] Instance newer_first_dec : RelDecision newer_first.
Proof. intros x y. unfold newer_first. apply _. Defined.

(** The rows a query set selects from a table, with their primary keys. *)
Definition select (q : QuerySet) (t : list VerifiedName) : list Instance_ :=
  let rows := filter (λ x : Instance_, qs_where q x.2 = true) (imap pair t) in
  if qs_newest_first q then merge_sort newer_first rows else rows.

(** Evaluating a query set (iteration, truth value). *)
Definition fetch (q : QuerySet) : M (list Instance_) :=
  let* t := get_table in ret (select q t).

(** [qs.first()] *)
Definition first (q : QuerySet) : M (option Instance_) :=
  let* rows := fetch q in ret (head rows).

(** [qs.update(field=value)]: one UPDATE statement over the selected rows;
    returns the number of rows matched. No [post_save] signal is sent. *)
Definition update (q : QuerySet) (f : VerifiedName → VerifiedName) : M nat :=
  let* t := get_table in
  put_table ((λ r, if qs_where q r then f r else r) <$> t) then_
  ret (length (select q t)).

(** [obj.save()] for an instance that came from a query: the row with its
    primary key is overwritten with the instance's fields, and [post_save] is
    sent for it. *)
Definition save (obj : Instance_) : M unit :=
  let* t := get_table in
  put_table (<[obj.1 := obj.2]> t) then_
  send_post_save obj.1 false.

(** [VerifiedName.objects.create(...)]: a new row, with the next primary key
    and [created] set to the time [now] of the call; [post_save] is sent for
    it. *)
Definition objects_create (now : nat) (user_ : nat)
    (verified_name_ profile_name_ : string)
    (verification_attempt_id_ proctored_exam_attempt_id_ : option nat)
    (status_ : VerifiedNameStatus) : M Instance_ :=
  let* t := get_table in
  let r := mkVerifiedName user_ verified_name_ profile_name_
             verification_attempt_id_ proctored_exam_attempt_id_ status_ now in
  put_table (t ++ [r]) then_
  send_post_save (length t) true then_
  ret (length t, r).

(** [User.objects.get(id=user_id)] *)
Definition User_objects_get (user_id : nat) : M nat :=
  λ w, if bool_decide (user_id ∈ auth_user w) then (inr user_id, w)
       else (inl UserDoesNotExist, w).

(** Field lookups used in the WHERE clauses. *)
Definition is_none {A} (o : option A) : bool :=
  match o with None => true | Some _ => false end.

Definition eq_id (o : option nat) (n : nat) : bool := bool_decide (o = Some n).

(** ** tasks.py *)

Definition idv_update_verified_name_task
    (now : nat) (attempt_id user_id : nat)
    (name_affirmation_status : VerifiedNameStatus)
    (photo_id_name full_name : string) : M unit :=
  emit INFO (IdvTaskStarted user_id attempt_id name_affirmation_status) then_
  let verified_names :=
    order_by_created_desc
      (objects_filter (λ r, bool_decide (user r = user_id)
                            && bool_decide (verified_name r = photo_id_name))) in
  let* found := fetch verified_names in
  if negb (bool_decide (found = [])) then
    let* updated_for_attempt_id :=
      update (filter_ verified_names
                (λ r, is_none (proctored_exam_attempt_id r)
                      && is_none (verification_attempt_id r)))
             (set_verification_attempt_id (Some attempt_id)) in
    (if negb (updated_for_attempt_id =? 0)
     then emit INFO (UpdatedToVerificationAttemptId user_id attempt_id)
     else ret tt) then_
    let verified_name_qs :=
      filter_ verified_names
        (λ r, eq_id (verification_attempt_id r) attempt_id
              && is_none (proctored_exam_attempt_id r)) in
    let* objs := fetch verified_name_qs in
    for_each objs (λ verified_name_obj,
      save (verified_name_obj.1,
            set_status name_affirmation_status verified_name_obj.2)) then_
    emit INFO (UpdatedIdvStatus user_id attempt_id name_affirmation_status)
  else
    let* user_ := User_objects_get user_id in
    let* created_obj := objects_create now user_ photo_id_name full_name
                    (Some attempt_id) None name_affirmation_status in
    emit ERROR (CreatedNoMatchFound user_id (status created_obj.2) attempt_id).

Definition proctoring_update_verified_name_task
    (now : nat) (attempt_id user_id : nat)
    (name_affirmation_status : VerifiedNameStatus)
    (full_name profile_name_ : string) : M unit :=
  let* approved :=
    first (order_by_created_desc
             (objects_filter (λ r, bool_decide (user r = user_id)
                                   && bool_decide (status r = APPROVED)))) in
  match approved with
  | Some approved_obj =>
      let approved_verified_name := verified_name approved_obj.2 in
      let is_full_name_approved :=
        bool_decide (approved_verified_name = full_name) in
      if negb is_full_name_approved
      then emit WARNING (FullNameNotApproved attempt_id approved_obj.1)
      else ret tt
  | None =>
      let* existing :=
        first (order_by_created_desc
                 (objects_filter
                    (λ r, bool_decide (user r = user_id)
                          && eq_id (proctored_exam_attempt_id r) attempt_id))) in
      match existing with
      | Some existing_obj =>
          save (existing_obj.1,
                set_status name_affirmation_status existing_obj.2) then_
          emit INFO (UpdatedProctoredStatus user_id attempt_id
                       name_affirmation_status)
      | None =>
          if truthy full_name && truthy profile_name_ then
            let* user_ := User_objects_get user_id in
            objects_create now user_ full_name profile_name_
              None (Some attempt_id) name_affirmation_status then_
            emit INFO (CreatedForProctoredAttempt user_id
                         name_affirmation_status attempt_id)
          else
            emit ERROR (CannotCreate user_id attempt_id)
      end
  end.

(** ** api.py *)

Module api.

(** Modelled from the spec: [api.py] is not among the sources. The checks are
    made in the order the specification lists them: first the two attempt
    ids, then [verified_name], then [profile_name]; an attempt id is given
    when it is not [None], a name is empty when it is the empty string. The
    caller passes a user object, so the user is not looked up. *)
Definition create_verified_name
    (now : nat) (user_ : nat) (verified_name_ profile_name_ : string)
    (verification_attempt_id_ proctored_exam_attempt_id_ : option nat)
    (status_ : VerifiedNameStatus) : M unit :=
  if negb (is_none verification_attempt_id_)
     && negb (is_none proctored_exam_attempt_id_)
  then raise VerifiedNameMultipleAttemptIds
  else if bool_decide (verified_name_ = EmptyString)
  then raise (VerifiedNameEmptyString "verified_name" user_)
  else if bool_decide (profile_name_ = EmptyString)
  then raise (VerifiedNameEmptyString "profile_name" user_)
  else
    objects_create now user_ verified_name_ profile_name_
      verification_attempt_id_ proctored_exam_attempt_id_ status_ then_
    ret tt.

(** Modelled from the spec: [api.py] is not among the sources. The most
    recently created record of the user, optionally among the approved ones
    only. *)
Definition get_verified_name (user_ : nat) (is_verified_only : bool)
  : M (option Instance_) :=
  first (order_by_created_desc
           (objects_filter
              (λ r, bool_decide (user r = user_)
                    && (negb is_verified_only
                        || bool_decide (status r = APPROVED))))).

(** Modelled from the spec: [api.py] is not among the sources. The new record
    copies [verified_name], [profile_name] and [status] of the most recent
    one, as the specification words it. *)
Definition update_verification_attempt_id
    (now : nat) (user_ : nat) (attempt_id : nat) : M unit :=
  let* recent := get_verified_name user_ false in
  match recent with
  | None => raise VerifiedNameDoesNotExist
  | Some obj =>
      if negb (is_none (verification_attempt_id obj.2))
         || negb (is_none (proctored_exam_attempt_id obj.2))
      then
        objects_create now user_ (verified_name obj.2) (profile_name obj.2)
          (Some attempt_id) None (status obj.2) then_
        ret tt
      else
        save (obj.1, set_verification_attempt_id (Some attempt_id) obj.2)
  end.

(** Modelled from the spec: [api.py] is not among the sources. Exactly one
    attempt id must be given; of several records with that attempt id the
    most recently created one is taken. *)
Definition update_verified_name_status
    (user_ : nat) (status_ : VerifiedNameStatus)
    (verification_attempt_id_ proctored_exam_attempt_id_ : option nat)
  : M unit :=
  match verification_attempt_id_, proctored_exam_attempt_id_ with
  | None, None => raise VerifiedNameAttemptIdNotGiven
  | Some _, Some _ => raise VerifiedNameMultipleAttemptIds
  | Some a, None =>
      let* found :=
        first (order_by_created_desc
                 (objects_filter
                    (λ r, bool_decide (user r = user_)
                          && eq_id (verification_attempt_id r) a))) in
      match found with
      | None => raise VerifiedNameDoesNotExist
      | Some obj => save (obj.1, set_status status_ obj.2)
      end
  | None, Some a =>
      let* found :=
        first (order_by_created_desc
                 (objects_filter
                    (λ r, bool_decide (user r = user_)
                          && eq_id (proctored_exam_attempt_id r) a))) in
      match found with
      | None => raise VerifiedNameDoesNotExist
      | Some obj => save (obj.1, set_status status_ obj.2)
      end
  end.

End api.

(** ** Operations on the store, for statements about every operation *)

Inductive Operation :=
| CreateVerifiedName (now user_ : nat) (verified_name_ profile_name_ : string)
    (verification_attempt_id_ proctored_exam_attempt_id_ : option nat)
    (status_ : VerifiedNameStatus)
| UpdateVerificationAttemptId (now user_ attempt_id : nat)
| UpdateVerifiedNameStatus (user_ : nat) (status_ : VerifiedNameStatus)
    (verification_attempt_id_ proctored_exam_attempt_id_ : option nat)
| IdvEvent (now attempt_id user_id : nat) (status_ : VerifiedNameStatus)
    (photo_id_name full_name : string)
| ProctoringEvent (now attempt_id user_id : nat) (status_ : VerifiedNameStatus)
    (full_name profile_name_ : string).

Definition perform (op : Operation) : M unit :=
  match op with
  | CreateVerifiedName now u vn pn va pe st =>
      api.create_verified_name now u vn pn va pe st
  | UpdateVerificationAttemptId now u a =>
      api.update_verification_attempt_id now u a
  | UpdateVerifiedNameStatus u st va pe =>
      api.update_verified_name_status u st va pe
  | IdvEvent now a u st photo full =>
      idv_update_verified_name_task now a u st photo full
  | ProctoringEvent now a u st full pn =>
      proctoring_update_verified_name_task now a u st full pn
  end.

(** The world after a sequence of operations; an operation that raises leaves
    whatever it had written. *)
Definition perform_all (ops : list Operation) (w : World) : World :=
  foldl (λ w op, (perform op w).2) w ops.

(** ** Predicates of the statements *)

(** At most one of the two attempt ids is set. *)
Definition one_attempt_id (r : VerifiedName) : Prop :=
  verification_attempt_id r = None ∨ proctored_exam_attempt_id r = None.

(** The record with primary key [pk] is a most recently created one among
    the records of the table that satisfy [p]. *)
Definition most_recent (p : VerifiedName → bool) (t : list VerifiedName)
    (pk : nat) (r : VerifiedName) : Prop :=
  t !! pk = Some r ∧ p r = true ∧
  ∀ pk' r', t !! pk' = Some r' → p r' = true → created r' ≤ created r.

(** The WHERE clauses of the two tasks. *)
Definition has_photo_id_name (user_id : nat) (photo_id_name : string)
    (r : VerifiedName) : bool :=
  bool_decide (user r = user_id) && bool_decide (verified_name r = photo_id_name).

Definition is_approved_of (user_id : nat) (r : VerifiedName) : bool :=
  bool_decide (user r = user_id) && bool_decide (status r = APPROVED).

Definition has_proctored_attempt (user_id attempt_id : nat)
    (r : VerifiedName) : bool :=
  bool_decide (user r = user_id) && eq_id (proctored_exam_attempt_id r) attempt_id.

(** ** The rule sets, record by record *)

(** Step 2(a) of the IDV rule set, on one record. *)
Definition idv_attach (attempt_id user_id : nat) (photo_id_name : string)
    (r : VerifiedName) : VerifiedName :=
  if has_photo_id_name user_id photo_id_name r
     && (is_none (proctored_exam_attempt_id r)
         && is_none (verification_attempt_id r))
  then set_verification_attempt_id (Some attempt_id) r
  else r.

(** Step 2(b) of the IDV rule set, on one record. *)
Definition idv_set_status (attempt_id user_id : nat) (st : VerifiedNameStatus)
    (photo_id_name : string) (r : VerifiedName) : VerifiedName :=
  if has_photo_id_name user_id photo_id_name r
     && (eq_id (verification_attempt_id r) attempt_id
         && is_none (proctored_exam_attempt_id r))
  then set_status st r
  else r.

(** ** The query sets of the tasks and of the API *)

(** [verified_names] of the IDV task. *)
Definition idv_verified_names (user_id : nat) (photo_id_name : string) : QuerySet :=
  order_by_created_desc (objects_filter (has_photo_id_name user_id photo_id_name)).

(** [verified_name_qs] of the IDV task. *)
Definition idv_to_update (user_id attempt_id : nat) (photo_id_name : string)
  : QuerySet :=
  filter_ (idv_verified_names user_id photo_id_name)
    (λ r, eq_id (verification_attempt_id r) attempt_id
          && is_none (proctored_exam_attempt_id r)).

(** The two queries of the proctoring task: the approved records of the
    user, and the user's records with the event's proctored attempt id. *)
Definition proctoring_approved (user_id : nat) : QuerySet :=
  order_by_created_desc (objects_filter (is_approved_of user_id)).

Definition proctoring_existing (user_id attempt_id : nat) : QuerySet :=
  order_by_created_desc (objects_filter (has_proctored_attempt user_id attempt_id)).

(** The query of [get_verified_name] with [is_verified_only=False]. *)
Definition recent_of (u : nat) : QuerySet :=
  order_by_created_desc
    (objects_filter
       (λ r, bool_decide (user r = u)
             && (negb false || bool_decide (status r = APPROVED)))).

(** The record belongs to the user. *)
Definition is_record_of (u : nat) (r : VerifiedName) : bool :=
  bool_decide (user r = u).

(** The number of records of a user. *)
Definition records_of (u : nat) (t : list VerifiedName) : nat :=
  length (filter (λ r, user r = u) t).

(** ** Sample data *)

Definition jon : VerifiedName :=
  mkVerifiedName 1 "Jonathan Doe" "Jon Doe" None None PENDING 10.

Definition jon_approved : VerifiedName :=
  mkVerifiedName 1 "Jonathan Doe" "Jon Doe" None None APPROVED 11.

Definition jon_proctored (created_ : nat) : VerifiedName :=
  mkVerifiedName 1 "Jonathan Doe" "Jon Doe" None (Some 456) PENDING created_.

Definition one_user : list nat := [1].

Definition two_proctored : World :=
  mkWorld one_user [jon_proctored 12; jon_proctored 15] [] [].

Definition sample_operations : list Operation :=
  [CreateVerifiedName 10 1 "Jonathan Doe" "Jon Doe" None None PENDING;
   IdvEvent 20 123 1 SUBMITTED "Jonathan Doe" "Jon Doe";
   UpdateVerificationAttemptId 30 1 789;
   ProctoringEvent 40 456 1 SUBMITTED "Jonathan Doe" "Jon Doe";
   UpdateVerifiedNameStatus 1 DENIED None (Some 456)].

(** ** Definitions for the further properties *)

(** The two steps of the IDV rule set, one after the other, on one record. *)
Definition idv_step (attempt_id user_id : nat) (st : VerifiedNameStatus)
    (photo_id_name : string) (r : VerifiedName) : VerifiedName :=
  idv_set_status attempt_id user_id st photo_id_name
    (idv_attach attempt_id user_id photo_id_name r).

(** The record is linked to an attempt other than the verification attempt
    [attempt_id]. *)
Definition linked_elsewhere (attempt_id : nat) (r : VerifiedName) : Prop :=
  proctored_exam_attempt_id r ≠ None
  ∨ ∃ b, verification_attempt_id r = Some b ∧ b ≠ attempt_id.

(** The operation is a proctoring event of the user. *)
Definition is_proctoring_event_of (user_id : nat) (op : Operation) : Prop :=
  match op with
  | ProctoringEvent _ _ u _ _ _ => u = user_id
  | _ => False
  end.

(** Both names of the record are non-empty. *)
Definition names_nonempty (r : VerifiedName) : Prop :=
  verified_name r ≠ EmptyString ∧ profile_name r ≠ EmptyString.


(** The records [get_verified_name] chooses among. *)
Definition wanted_by (user_ : nat) (is_verified_only : bool)
    (r : VerifiedName) : Prop :=
  user r = user_ ∧ (is_verified_only = true → status r = APPROVED).

(** The record belongs to the user and carries the one attempt id that is
    given. *)
Definition carries_attempt (user_ : nat) (va pe : option nat)
    (r : VerifiedName) : bool :=
  bool_decide (user r = user_)
  && match va, pe with
     | Some a, _ => eq_id (verification_attempt_id r) a
     | None, Some a => eq_id (proctored_exam_attempt_id r) a
     | None, None => false
     end.

(** ** Query sets *)

(** Closes a goal [∀ pk r, t !! pk = Some r → ...] over a table that is
    written out, row by row. *)
Ltac by_rows :=
  let pk := fresh "pk" in
  let r := fresh "r" in
  let Hr := fresh "Hr" in
  intros pk r Hr; simpl in Hr;
  repeat (destruct pk as [|pk]; simpl in Hr; [injection Hr as <-; done|]);
  done.

#[global] Instance newer_first_trans : Transitive newer_first.
Proof. intros x y z. unfold newer_first. lia. Qed.

#[global] Instance newer_first_total : Total newer_first.
Proof. intros x y. unfold newer_first. lia. Qed.

Lemma elem_of_indexed (t : list VerifiedName) (x : Instance_) :
  x ∈ imap pair t ↔ t !! x.1 = Some x.2.
Proof.
  rewrite elem_of_lookup_imap. split.
  - intros (i & r & -> & Hi). done.
  - intros H. exists x.1, x.2. by destruct x.
Qed.

Lemma NoDup_indexed_fst (t : list VerifiedName) : NoDup (imap pair t).*1.
Proof.
  rewrite fmap_imap.
  rewrite (imap_ext _ (λ i _, i)); [|done].
  rewrite imap_seq_0, list_fmap_id. apply NoDup_seq.
Qed.

Section select.
Context (q : QuerySet) (t : list VerifiedName).

Lemma select_Permutation :
  select q t ≡ₚ filter (λ x : Instance_, qs_where q x.2 = true) (imap pair t).
Proof.
  unfold select. destruct (qs_newest_first q); [|done].
  apply merge_sort_Permutation.
Qed.

Lemma elem_of_select (x : Instance_) :
  x ∈ select q t ↔ t !! x.1 = Some x.2 ∧ qs_where q x.2 = true.
Proof.
  rewrite select_Permutation, list_elem_of_filter, elem_of_indexed. tauto.
Qed.

Lemma NoDup_select_fst : NoDup (select q t).*1.
Proof.
  rewrite select_Permutation.
  eapply sublist_NoDup; [apply (NoDup_indexed_fst t)|].
  apply fmap_sublist, sublist_filter.
Qed.

Lemma select_nil :
  select q t = [] ↔ ∀ pk r, t !! pk = Some r → qs_where q r = false.
Proof.
  split.
  - intros Hnil pk r Hpk. destruct (qs_where q r) eqn:Hq; [|done].
    assert ((pk, r) ∈ select q t) as Hin by (by apply elem_of_select).
    rewrite Hnil in Hin. by apply elem_of_nil in Hin.
  - intros Hno. destruct (select q t) as [|[pk r] l] eqn:Hs; [done|].
    assert ((pk, r) ∈ select q t) as Hin by (rewrite Hs; left).
    apply elem_of_select in Hin as [Hpk Hq]. simpl in *.
    rewrite (Hno _ _ Hpk) in Hq. done.
Qed.

Lemma head_select_None :
  head (select q t) = None ↔ ∀ pk r, t !! pk = Some r → qs_where q r = false.
Proof. rewrite head_None. apply select_nil. Qed.

Lemma head_select_Some (x : Instance_) :
  qs_newest_first q = true →
  head (select q t) = Some x →
  most_recent (qs_where q) t x.1 x.2.
Proof.
  intros Hord Hhd.
  assert (x ∈ select q t) as Hin by (by eapply head_Some_elem_of).
  apply elem_of_select in Hin as [Hpk Hq].
  split; [done|]. split; [done|].
  intros pk' r' Hpk' Hq'.
  assert ((pk', r') ∈ select q t) as Hin' by (by apply elem_of_select).
  apply head_Some in Hhd as [l Hl].
  assert (StronglySorted newer_first (select q t)) as Hsorted.
  { unfold select. rewrite Hord. apply StronglySorted_merge_sort; apply _. }
  rewrite Hl in Hsorted, Hin'.
  apply StronglySorted_cons in Hsorted as [Hall _].
  apply elem_of_cons in Hin' as [Heq|Hin'].
  - by inversion Heq.
  - rewrite Forall_forall in Hall. apply (Hall _ Hin').
Qed.

End select.

(** ** Saving the rows of a query set one by one *)

Lemma for_each_save_run (objs : list Instance_) (g : VerifiedName → VerifiedName) w :
  for_each objs (λ o, save (o.1, g o.2)) w
  = (inr tt,
     mkWorld (auth_user w)
       (foldl (λ t o, <[o.1 := g o.2]> t) (table w) objs)
       (logged w)
       (post_save w ++ ((λ o : Instance_, (o.1, false)) <$> objs))).
Proof.
  revert w. induction objs as [|o objs IH]; intros w.
  - simpl. rewrite app_nil_r. by destruct w.
  - simpl. unfold bind at 1.
    unfold save at 1, bind, get_table, put_table, send_post_save.
    simpl. rewrite IH. simpl. by rewrite <- app_assoc.
Qed.

Lemma foldl_save_untouched (objs : list Instance_) (g : VerifiedName → VerifiedName)
    (t : list VerifiedName) i :
  i ∉ objs.*1 →
  foldl (λ t o, <[o.1 := g o.2]> t) t objs !! i = t !! i.
Proof.
  revert t. induction objs as [|o objs IH]; intros t Hi; [done|].
  rewrite fmap_cons, not_elem_of_cons in Hi. destruct Hi as [Hne Hi].
  simpl. rewrite IH by done. by apply list_lookup_insert_ne.
Qed.

Lemma foldl_save_touched (objs : list Instance_) (g : VerifiedName → VerifiedName)
    (t : list VerifiedName) i r :
  NoDup objs.*1 → (i, r) ∈ objs → i < length t →
  foldl (λ t o, <[o.1 := g o.2]> t) t objs !! i = Some (g r).
Proof.
  revert t. induction objs as [|o objs IH]; intros t Hnd Hin Hlt.
  - by apply elem_of_nil in Hin.
  - rewrite fmap_cons in Hnd. apply NoDup_cons in Hnd as [Hfresh Hnd].
    simpl. apply elem_of_cons in Hin as [<-|Hin].
    + rewrite foldl_save_untouched by done. simpl.
      by apply list_lookup_insert_eq.
    + apply IH; [done..|]. by rewrite length_insert.
Qed.

(** Saving every row of a query set with [g] applied is the same as mapping
    [g] over the rows the query set selects. *)
Lemma foldl_save_select q (g : VerifiedName → VerifiedName)
    (t : list VerifiedName) :
  foldl (λ t o, <[o.1 := g o.2]> t) t (select q t)
  = (λ r, if qs_where q r then g r else r) <$> t.
Proof.
  apply list_eq. intros i. rewrite list_lookup_fmap.
  destruct (t !! i) as [r|] eqn:Hi; simpl.
  - destruct (qs_where q r) eqn:Hq.
    + apply foldl_save_touched.
      * apply NoDup_select_fst.
      * by apply elem_of_select.
      * by eapply lookup_lt_Some.
    + rewrite foldl_save_untouched; [done|].
      intros ([i' r'] & -> & [Hi' Hq']%elem_of_select)%list_elem_of_fmap.
      simpl in *. congruence.
  - rewrite foldl_save_untouched; [done|].
    intros ([i' r'] & -> & [Hi' Hq']%elem_of_select)%list_elem_of_fmap.
    simpl in *. congruence.
Qed.

(** ** What the two tasks compute *)

Lemma idv_run_found now attempt_id user_id st photo_id_name full_name w :
  select (idv_verified_names user_id photo_id_name) (table w) ≠ [] →
  ∃ info,
    idv_update_verified_name_task now attempt_id user_id st photo_id_name full_name w
    = (inr tt,
       mkWorld (auth_user w)
         (idv_set_status attempt_id user_id st photo_id_name
            <$> (idv_attach attempt_id user_id photo_id_name <$> table w))
         (logged w ++ info)
         (post_save w
          ++ ((λ o : Instance_, (o.1, false))
                <$> select (idv_to_update user_id attempt_id photo_id_name)
                      (idv_attach attempt_id user_id photo_id_name <$> table w))))
    ∧ Forall (λ l, l.1 = INFO) info.
Proof.
  intros Hfound.
  unfold idv_update_verified_name_task, bind, emit, fetch, get_table, ret. simpl.
  fold (has_photo_id_name user_id photo_id_name).
  fold (idv_verified_names user_id photo_id_name).
  rewrite bool_decide_eq_false_2 by done. simpl.
  unfold update, bind, get_table, put_table, ret. simpl.
  set (n := length (select _ (table w))).
  set (qs := filter_ (idv_verified_names user_id photo_id_name) _).
  set (t1 := _ <$> table w).
  assert (∀ l, for_each (select qs t1)
            (λ o, save (o.1, set_status st o.2))
            (mkWorld (auth_user w) t1 l (post_save w))
          = (inr tt, mkWorld (auth_user w)
               (idv_set_status attempt_id user_id st photo_id_name
                  <$> (idv_attach attempt_id user_id photo_id_name <$> table w)) l
               (post_save w
                ++ ((λ o : Instance_, (o.1, false))
                      <$> select (idv_to_update user_id attempt_id photo_id_name)
                            (idv_attach attempt_id user_id photo_id_name
                               <$> table w)))))
    as Hloop.
  { intros l. rewrite for_each_save_run. simpl. rewrite foldl_save_select. done. }
  destruct (n =? 0); simpl; unfold with_logged, with_table; simpl;
    rewrite Hloop; simpl; rewrite <- !app_assoc; eexists; (split; [done|]);
    repeat constructor.
Qed.

Lemma idv_run_none now attempt_id user_id st photo_id_name full_name w :
  select (idv_verified_names user_id photo_id_name) (table w) = [] →
  idv_update_verified_name_task now attempt_id user_id st photo_id_name full_name w
  = if bool_decide (user_id ∈ auth_user w)
    then (inr tt,
          mkWorld (auth_user w)
            (table w ++ [mkVerifiedName user_id photo_id_name full_name
                           (Some attempt_id) None st now])
            (logged w ++ [(INFO, IdvTaskStarted user_id attempt_id st);
                          (ERROR, CreatedNoMatchFound user_id st attempt_id)])
            (post_save w ++ [(length (table w), true)]))
    else (inl UserDoesNotExist,
          with_logged (logged w ++ [(INFO, IdvTaskStarted user_id attempt_id st)]) w).
Proof.
  intros Hnone.
  unfold idv_update_verified_name_task, bind, emit, fetch, get_table, ret. simpl.
  fold (has_photo_id_name user_id photo_id_name).
  fold (idv_verified_names user_id photo_id_name).
  rewrite Hnone. simpl.
  unfold User_objects_get. simpl.
  destruct (bool_decide (user_id ∈ auth_user w)); [|done].
  unfold with_logged. simpl. by rewrite <- app_assoc.
Qed.

Lemma proctoring_run now attempt_id user_id st full_name profile_name_ w :
  proctoring_update_verified_name_task now attempt_id user_id st
    full_name profile_name_ w
  = match head (select (proctoring_approved user_id) (table w)) with
    | Some x =>
        (inr tt,
         if bool_decide (verified_name x.2 = full_name) then w
         else with_logged
                (logged w ++ [(WARNING, FullNameNotApproved attempt_id x.1)]) w)
    | None =>
        match head (select (proctoring_existing user_id attempt_id) (table w)) with
        | Some x =>
            (inr tt,
             mkWorld (auth_user w) (<[x.1 := set_status st x.2]> (table w))
               (logged w ++ [(INFO, UpdatedProctoredStatus user_id attempt_id st)])
               (post_save w ++ [(x.1, false)]))
        | None =>
            if truthy full_name && truthy profile_name_ then
              if bool_decide (user_id ∈ auth_user w) then
                (inr tt,
                 mkWorld (auth_user w)
                   (table w ++ [mkVerifiedName user_id full_name profile_name_
                                  None (Some attempt_id) st now])
                   (logged w ++ [(INFO, CreatedForProctoredAttempt user_id st
                                          attempt_id)])
                   (post_save w ++ [(length (table w), true)]))
              else (inl UserDoesNotExist, w)
            else
              (inr tt,
               with_logged (logged w ++ [(ERROR, CannotCreate user_id attempt_id)]) w)
        end
    end.
Proof.
  unfold proctoring_update_verified_name_task, first, fetch, bind, get_table, ret.
  simpl.
  fold (is_approved_of user_id). fold (proctoring_approved user_id).
  destruct (head (select (proctoring_approved user_id) (table w))) as [x|].
  { destruct (bool_decide (verified_name x.2 = full_name)); simpl; [|done].
    by destruct w. }
  fold (has_proctored_attempt user_id attempt_id).
  fold (proctoring_existing user_id attempt_id).
  destruct (head (select (proctoring_existing user_id attempt_id) (table w)))
    as [x|]; [done|].
  destruct (truthy full_name && truthy profile_name_); [|done].
  unfold User_objects_get.
  destruct (bool_decide (user_id ∈ auth_user w)); done.
Qed.

(** The WHERE clauses, as propositions. *)

Lemma has_photo_id_name_true user_id photo_id_name r :
  has_photo_id_name user_id photo_id_name r = true
  ↔ user r = user_id ∧ verified_name r = photo_id_name.
Proof.
  unfold has_photo_id_name.
  rewrite andb_true_iff, !bool_decide_eq_true. done.
Qed.

Lemma is_approved_of_true user_id r :
  is_approved_of user_id r = true ↔ user r = user_id ∧ status r = APPROVED.
Proof.
  unfold is_approved_of. rewrite andb_true_iff, !bool_decide_eq_true. done.
Qed.

Lemma has_proctored_attempt_true user_id attempt_id r :
  has_proctored_attempt user_id attempt_id r = true
  ↔ user r = user_id ∧ proctored_exam_attempt_id r = Some attempt_id.
Proof.
  unfold has_proctored_attempt, eq_id.
  rewrite andb_true_iff, !bool_decide_eq_true. done.
Qed.

Lemma truthy_true s : truthy s = true ↔ s ≠ EmptyString.
Proof. destruct s; simpl; split; congruence. Qed.

Lemma no_approved_head user_id (t : list VerifiedName) :
  (∀ pk r, t !! pk = Some r → user r = user_id → status r ≠ APPROVED) →
  head (select (proctoring_approved user_id) t) = None.
Proof.
  intros Hno. apply head_select_None. intros pk r Hpk. simpl.
  apply not_true_is_false. rewrite is_approved_of_true.
  intros [Hu Hs]. by eapply Hno.
Qed.

Lemma existing_attempt_head user_id attempt_id (t : list VerifiedName) :
  (∃ pk r, t !! pk = Some r ∧ user r = user_id
           ∧ proctored_exam_attempt_id r = Some attempt_id) →
  ∃ x, head (select (proctoring_existing user_id attempt_id) t) = Some x
       ∧ most_recent (has_proctored_attempt user_id attempt_id) t x.1 x.2.
Proof.
  intros (pk & r & Hpk & Hu & Ha).
  destruct (head (select (proctoring_existing user_id attempt_id) t))
    as [x|] eqn:Hhd.
  - exists x. split; [done|]. by apply head_select_Some in Hhd.
  - rewrite head_select_None in Hhd. specialize (Hhd _ _ Hpk). simpl in Hhd.
    apply not_true_iff_false in Hhd. destruct Hhd.
    by apply has_proctored_attempt_true.
Qed.

(** ** The IDV task *)

Lemma idv_to_update_true user_id attempt_id photo_id_name r :
  qs_where (idv_to_update user_id attempt_id photo_id_name) r = true
  ↔ user r = user_id ∧ verified_name r = photo_id_name
    ∧ verification_attempt_id r = Some attempt_id
    ∧ proctored_exam_attempt_id r = None.
Proof.
  simpl. unfold eq_id.
  rewrite !andb_true_iff, has_photo_id_name_true, bool_decide_eq_true.
  destruct (proctored_exam_attempt_id r); simpl; split; try tauto.
  - intros (_ & _ & Hf). done.
  - intros (_ & _ & _ & Hf). done.
Qed.

(** The signals of the loop of the IDV task: one per selected record. *)
Lemma idv_signals user_id attempt_id photo_id_name (t : list VerifiedName) :
  let sent := (λ o : Instance_, (o.1, false))
                <$> select (idv_to_update user_id attempt_id photo_id_name) t in
  NoDup sent ∧
  ∀ pk (created_ : bool),
    (pk, created_) ∈ sent
    ↔ created_ = false
      ∧ ∃ r, t !! pk = Some r
             ∧ user r = user_id ∧ verified_name r = photo_id_name
             ∧ verification_attempt_id r = Some attempt_id
             ∧ proctored_exam_attempt_id r = None.
Proof.
  intros sent. subst sent. split.
  - apply (NoDup_fmap_1 fst). rewrite <- list_fmap_compose.
    apply NoDup_select_fst.
  - intros pk created_. rewrite list_elem_of_fmap. split.
    + intros ([pk' r] & Heq & [Hpk Hq]%elem_of_select).
      simpl in *. injection Heq as -> ->. split; [done|].
      exists r. split; [done|]. by apply idv_to_update_true.
    + intros (-> & r & Hpk & Hq). exists (pk, r). split; [done|].
      apply elem_of_select. split; [done|]. by apply idv_to_update_true.
Qed.

(** Step 2(a) on one record, field by field. *)
Lemma idv_attach_explicit attempt_id user_id photo_id_name r :
  idv_attach attempt_id user_id photo_id_name r
  = if decide (user r = user_id ∧ verified_name r = photo_id_name
               ∧ verification_attempt_id r = None
               ∧ proctored_exam_attempt_id r = None)
    then mkVerifiedName (user r) (verified_name r) (profile_name r)
           (Some attempt_id) (proctored_exam_attempt_id r) (status r)
           (created r)
    else r.
Proof.
  unfold idv_attach.
  destruct (decide (user r = user_id ∧ verified_name r = photo_id_name
                    ∧ verification_attempt_id r = None
                    ∧ proctored_exam_attempt_id r = None))
    as [(Hu & Hn & Hva & Hpe)|Hno].
  - rewrite (proj2 (has_photo_id_name_true user_id photo_id_name r))
      by done.
    rewrite Hva, Hpe. simpl. unfold set_verification_attempt_id.
    by rewrite Hpe.
  - destruct (has_photo_id_name user_id photo_id_name r) eqn:Hq; simpl;
      [|done].
    apply has_photo_id_name_true in Hq as [Hu Hn].
    destruct (proctored_exam_attempt_id r) eqn:Hpe; simpl; [done|].
    destruct (verification_attempt_id r) eqn:Hva; simpl; [done|].
    by destruct Hno.
Qed.

(** Step 2(b) on one record, field by field. *)
Lemma idv_set_status_explicit attempt_id user_id st photo_id_name r :
  idv_set_status attempt_id user_id st photo_id_name r
  = if decide (user r = user_id ∧ verified_name r = photo_id_name
               ∧ verification_attempt_id r = Some attempt_id
               ∧ proctored_exam_attempt_id r = None)
    then mkVerifiedName (user r) (verified_name r) (profile_name r)
           (verification_attempt_id r) (proctored_exam_attempt_id r) st
           (created r)
    else r.
Proof.
  unfold idv_set_status, eq_id.
  destruct (decide (user r = user_id ∧ verified_name r = photo_id_name
                    ∧ verification_attempt_id r = Some attempt_id
                    ∧ proctored_exam_attempt_id r = None))
    as [(Hu & Hn & Hva & Hpe)|Hno].
  - rewrite (proj2 (has_photo_id_name_true user_id photo_id_name r))
      by done.
    rewrite (bool_decide_eq_true_2 _ Hva), Hpe. simpl. unfold set_status.
    by rewrite Hpe.
  - destruct (has_photo_id_name user_id photo_id_name r) eqn:Hq; simpl;
      [|done].
    apply has_photo_id_name_true in Hq as [Hu Hn].
    destruct (bool_decide_reflect
                (verification_attempt_id r = Some attempt_id)) as [Hva|Hva];
      simpl; [|done].
    destruct (proctored_exam_attempt_id r) eqn:Hpe; simpl; [done|].
    by destruct Hno.
Qed.

(** C1. When the user has a record whose [verified_name] is the event's
    [photo_id_name], the IDV task returns normally and the table afterwards is
    the old one with step 2(a) applied to every record and then step 2(b)
    applied to every record; no record is added and the users are untouched.
    Step 2(a): a record of the user with that name and neither attempt id
    gets [verification_attempt_id = attempt_id]; every other record stays as
    it is. Step 2(b): a record of the user with that name, verification
    attempt id [attempt_id] and no proctored attempt id gets [status] set to
    the event's status; every other record stays as it is. The records of
    step 2(b) are saved one by one: exactly one [post_save] signal is sent
    for each of them, and none for a creation. *)
Theorem idv_updates_matching_records
    now attempt_id user_id st photo_id_name full_name w :
  (∃ pk r, table w !! pk = Some r ∧ user r = user_id
           ∧ verified_name r = photo_id_name) →
  let out := idv_update_verified_name_task now attempt_id user_id st
               photo_id_name full_name w in
  let attached := idv_attach attempt_id user_id photo_id_name <$> table w in
  out.1 = inr tt ∧
  auth_user out.2 = auth_user w ∧
  table out.2 = (idv_set_status attempt_id user_id st photo_id_name <$> attached) ∧
  length (table out.2) = length (table w) ∧
  (∀ pk r, table w !! pk = Some r →
     attached !! pk
     = Some (if decide (user r = user_id ∧ verified_name r = photo_id_name
                        ∧ verification_attempt_id r = None
                        ∧ proctored_exam_attempt_id r = None)
             then mkVerifiedName (user r) (verified_name r) (profile_name r)
                    (Some attempt_id) (proctored_exam_attempt_id r) (status r)
                    (created r)
             else r)) ∧
  (∀ pk r, attached !! pk = Some r →
     table out.2 !! pk
     = Some (if decide (user r = user_id ∧ verified_name r = photo_id_name
                        ∧ verification_attempt_id r = Some attempt_id
                        ∧ proctored_exam_attempt_id r = None)
             then mkVerifiedName (user r) (verified_name r) (profile_name r)
                    (verification_attempt_id r) (proctored_exam_attempt_id r)
                    st (created r)
             else r)) ∧
  (∀ pk r, table w !! pk = Some r →
     user r = user_id → verified_name r = photo_id_name →
     proctored_exam_attempt_id r = None →
     verification_attempt_id r = None
     ∨ verification_attempt_id r = Some attempt_id →
     ∃ r', table out.2 !! pk = Some r'
           ∧ verification_attempt_id r' = Some attempt_id
           ∧ status r' = st) ∧
  ∃ sent, post_save out.2 = post_save w ++ sent ∧ NoDup sent ∧
    ∀ pk (created_ : bool),
      (pk, created_) ∈ sent
      ↔ created_ = false
        ∧ ∃ r, attached !! pk = Some r
               ∧ user r = user_id ∧ verified_name r = photo_id_name
               ∧ verification_attempt_id r = Some attempt_id
               ∧ proctored_exam_attempt_id r = None.
Proof.
  intros (pk & r & Hpk & Hu & Hn) out attached. subst out attached.
  destruct (idv_run_found now attempt_id user_id st photo_id_name full_name w)
    as (info & -> & _).
  { rewrite select_nil. intros Hno. specialize (Hno _ _ Hpk). simpl in Hno.
    apply not_true_iff_false in Hno. destruct Hno.
    by apply has_photo_id_name_true. }
  simpl. split; [done|]. split; [done|]. split; [done|].
  split; [by rewrite !length_fmap|].
  assert (∀ pk r, table w !! pk = Some r →
            (idv_attach attempt_id user_id photo_id_name <$> table w) !! pk
            = Some (if decide (user r = user_id
                               ∧ verified_name r = photo_id_name
                               ∧ verification_attempt_id r = None
                               ∧ proctored_exam_attempt_id r = None)
                    then mkVerifiedName (user r) (verified_name r)
                           (profile_name r) (Some attempt_id)
                           (proctored_exam_attempt_id r) (status r) (created r)
                    else r)) as Hattach.
  { intros pk' r' Hpk'. rewrite list_lookup_fmap, Hpk'. simpl.
    by rewrite idv_attach_explicit. }
  assert (∀ pk r,
            (idv_attach attempt_id user_id photo_id_name <$> table w) !! pk
            = Some r →
            (idv_set_status attempt_id user_id st photo_id_name
               <$> (idv_attach attempt_id user_id photo_id_name <$> table w))
              !! pk
            = Some (if decide (user r = user_id
                               ∧ verified_name r = photo_id_name
                               ∧ verification_attempt_id r = Some attempt_id
                               ∧ proctored_exam_attempt_id r = None)
                    then mkVerifiedName (user r) (verified_name r)
                           (profile_name r) (verification_attempt_id r)
                           (proctored_exam_attempt_id r) st (created r)
                    else r)) as Hstatus.
  { intros pk' r' Hpk'. rewrite list_lookup_fmap, Hpk'. simpl.
    by rewrite idv_set_status_explicit. }
  split; [exact Hattach|]. split; [exact Hstatus|]. split.
  - intros pk' r' Hpk' Hu' Hn' Hpe' Hva'.
    pose proof (Hattach _ _ Hpk') as Ha.
    eexists. split; [apply (Hstatus _ _ Ha)|].
    destruct (decide (user r' = user_id ∧ verified_name r' = photo_id_name
                      ∧ verification_attempt_id r' = None
                      ∧ proctored_exam_attempt_id r' = None))
      as [(_ & _ & Hnone & _)|Hlinked]; simpl.
    + rewrite decide_True by done. done.
    + destruct Hva' as [Hva'|Hva']; [by destruct Hlinked|].
      rewrite decide_True by done. done.
  - eexists. split; [done|]. apply idv_signals.
Qed.

Lemma idv_updates_matching_records_witness :
  (∃ pk r, table (mkWorld one_user [jon] [] []) !! pk = Some r ∧ user r = 1
           ∧ verified_name r = "Jonathan Doe") ∧
  let w := mkWorld one_user [jon] [] [] in
  let out := idv_update_verified_name_task 20 123 1 SUBMITTED
               "Jonathan Doe" "Jon Doe" w in
  let attached := idv_attach 123 1 "Jonathan Doe" <$> table w in
  out.1 = inr tt ∧
  auth_user out.2 = auth_user w ∧
  table out.2 = (idv_set_status 123 1 SUBMITTED "Jonathan Doe" <$> attached) ∧
  length (table out.2) = length (table w) ∧
  (∀ pk r, table w !! pk = Some r →
     attached !! pk
     = Some (if decide (user r = 1 ∧ verified_name r = "Jonathan Doe"
                        ∧ verification_attempt_id r = None
                        ∧ proctored_exam_attempt_id r = None)
             then mkVerifiedName (user r) (verified_name r) (profile_name r)
                    (Some 123) (proctored_exam_attempt_id r) (status r)
                    (created r)
             else r)) ∧
  (∀ pk r, attached !! pk = Some r →
     table out.2 !! pk
     = Some (if decide (user r = 1 ∧ verified_name r = "Jonathan Doe"
                        ∧ verification_attempt_id r = Some 123
                        ∧ proctored_exam_attempt_id r = None)
             then mkVerifiedName (user r) (verified_name r) (profile_name r)
                    (verification_attempt_id r) (proctored_exam_attempt_id r)
                    SUBMITTED (created r)
             else r)) ∧
  (∀ pk r, table w !! pk = Some r →
     user r = 1 → verified_name r = "Jonathan Doe" →
     proctored_exam_attempt_id r = None →
     verification_attempt_id r = None
     ∨ verification_attempt_id r = Some 123 →
     ∃ r', table out.2 !! pk = Some r'
           ∧ verification_attempt_id r' = Some 123
           ∧ status r' = SUBMITTED) ∧
  ∃ sent, post_save out.2 = post_save w ++ sent ∧ NoDup sent ∧
    ∀ pk (created_ : bool),
      (pk, created_) ∈ sent
      ↔ created_ = false
        ∧ ∃ r, attached !! pk = Some r
               ∧ user r = 1 ∧ verified_name r = "Jonathan Doe"
               ∧ verification_attempt_id r = Some 123
               ∧ proctored_exam_attempt_id r = None.
Proof.
  split.
  - exists 0, jon. simpl. done.
  - apply idv_updates_matching_records. exists 0, jon. simpl. done.
Defined.

(** The scenario of the specification: an unlinked record with the name of
    the photo id is linked and its status updated; an older record of the
    user that is already linked to another attempt is left alone. *)
Example idv_links_unlinked_record :
  idv_update_verified_name_task 20 123 1 SUBMITTED "Jonathan Doe" "Jon Doe"
    (mkWorld one_user
       [mkVerifiedName 1 "Jonathan Doe" "Jon Doe" (Some 99) None DENIED 5; jon]
       [] [])
  = (inr tt,
     mkWorld one_user
       [mkVerifiedName 1 "Jonathan Doe" "Jon Doe" (Some 99) None DENIED 5;
        mkVerifiedName 1 "Jonathan Doe" "Jon Doe" (Some 123) None SUBMITTED 10]
       [(INFO, IdvTaskStarted 1 123 SUBMITTED);
        (INFO, UpdatedToVerificationAttemptId 1 123);
        (INFO, UpdatedIdvStatus 1 123 SUBMITTED)]
       [(1, false)]).
Proof. reflexivity. Qed.

(** C5. When the user has no record whose [verified_name] is the event's
    [photo_id_name], the IDV task appends exactly one record, with
    [verified_name = photo_id_name], [profile_name = full_name],
    [verification_attempt_id = attempt_id], the given status and no proctored
    attempt id, and logs the anomaly at level ERROR. The user of the event is
    a row of the User table. *)
Theorem idv_creates_when_no_match
    now attempt_id user_id st photo_id_name full_name w :
  (∀ pk r, table w !! pk = Some r → user r = user_id →
           verified_name r ≠ photo_id_name) →
  user_id ∈ auth_user w →
  idv_update_verified_name_task now attempt_id user_id st photo_id_name full_name w
  = (inr tt,
     mkWorld (auth_user w)
       (table w ++ [mkVerifiedName user_id photo_id_name full_name
                      (Some attempt_id) None st now])
       (logged w ++ [(INFO, IdvTaskStarted user_id attempt_id st);
                     (ERROR, CreatedNoMatchFound user_id st attempt_id)])
       (post_save w ++ [(length (table w), true)])).
Proof.
  intros Hno Huser. rewrite idv_run_none.
  - by rewrite bool_decide_eq_true_2.
  - apply select_nil. intros pk r Hpk. simpl.
    apply not_true_is_false. rewrite has_photo_id_name_true.
    intros [Hu Hn]. by eapply Hno.
Qed.

Lemma idv_creates_when_no_match_witness :
  (∀ pk r, table (mkWorld one_user [jon] [] []) !! pk = Some r → user r = 1 →
           verified_name r ≠ "J. Doe") ∧
  1 ∈ auth_user (mkWorld one_user [jon] [] []) ∧
  idv_update_verified_name_task 20 123 1 SUBMITTED "J. Doe" "Jon Doe"
    (mkWorld one_user [jon] [] [])
  = (inr tt,
     mkWorld one_user
       [jon; mkVerifiedName 1 "J. Doe" "Jon Doe" (Some 123) None SUBMITTED 20]
       [(INFO, IdvTaskStarted 1 123 SUBMITTED);
        (ERROR, CreatedNoMatchFound 1 SUBMITTED 123)]
       [(1, true)]).
Proof.
  assert (∀ pk r, table (mkWorld one_user [jon] [] []) !! pk = Some r → user r = 1 →
                  verified_name r ≠ "J. Doe") as Hno.
  { by_rows. }
  assert (1 ∈ auth_user (mkWorld one_user [jon] [] [])) as Huser.
  { simpl. unfold one_user. apply list_elem_of_singleton. done. }
  split; [exact Hno|]. split; [exact Huser|].
  exact (idv_creates_when_no_match 20 123 1 SUBMITTED "J. Doe" "Jon Doe"
           (mkWorld one_user [jon] [] []) Hno Huser).
Defined.

(** When the user of the event is not a row of the User table, the creation
    branch of the IDV task raises at [User.objects.get] and creates nothing. *)
Lemma idv_unknown_user_raises
    now attempt_id user_id st photo_id_name full_name w :
  (∀ pk r, table w !! pk = Some r → user r = user_id →
           verified_name r ≠ photo_id_name) →
  user_id ∉ auth_user w →
  let out := idv_update_verified_name_task now attempt_id user_id st
               photo_id_name full_name w in
  out.1 = inl UserDoesNotExist ∧ table out.2 = table w.
Proof.
  intros Hno Huser out. subst out. rewrite idv_run_none.
  - by rewrite bool_decide_eq_false_2.
  - apply select_nil. intros pk r Hpk. simpl.
    apply not_true_is_false. rewrite has_photo_id_name_true.
    intros [Hu Hn]. by eapply Hno.
Qed.

(** ** The proctoring task *)

(** C4. When the user already has an APPROVED record, the proctoring task
    returns normally, leaves the table and the users as they were and saves
    nothing; it logs nothing, or one WARNING when [full_name] differs from
    the [verified_name] of the most recently created approved record. *)
Theorem proctoring_noop_when_approved
    now attempt_id user_id st full_name profile_name_ w :
  (∃ pk r, table w !! pk = Some r ∧ user r = user_id ∧ status r = APPROVED) →
  let out := proctoring_update_verified_name_task now attempt_id user_id st
               full_name profile_name_ w in
  out.1 = inr tt ∧
  table out.2 = table w ∧
  auth_user out.2 = auth_user w ∧
  post_save out.2 = post_save w ∧
  ∃ pk r, most_recent (is_approved_of user_id) (table w) pk r ∧
    logged out.2
    = logged w ++ (if bool_decide (verified_name r = full_name) then []
                   else [(WARNING, FullNameNotApproved attempt_id pk)]).
Proof.
  intros (pk & r & Hpk & Hu & Hs) out. subst out.
  rewrite proctoring_run.
  destruct (head (select (proctoring_approved user_id) (table w)))
    as [x|] eqn:Hhd.
  - apply head_select_Some in Hhd; [|done].
    split; [done|].
    split; [by destruct (bool_decide (verified_name x.2 = full_name))|].
    split; [by destruct (bool_decide (verified_name x.2 = full_name))|].
    split; [by destruct (bool_decide (verified_name x.2 = full_name))|].
    exists x.1, x.2. split; [done|].
    destruct (bool_decide (verified_name x.2 = full_name)); simpl; [|done].
    by rewrite app_nil_r.
  - rewrite head_select_None in Hhd. specialize (Hhd _ _ Hpk). simpl in Hhd.
    apply not_true_iff_false in Hhd. destruct Hhd.
    by apply is_approved_of_true.
Qed.

Lemma proctoring_noop_when_approved_witness :
  (∃ pk r, table (mkWorld one_user [jon; jon_approved] [] []) !! pk = Some r
           ∧ user r = 1 ∧ status r = APPROVED) ∧
  let out := proctoring_update_verified_name_task 20 456 1 SUBMITTED
               "J. Doe" "Jon Doe" (mkWorld one_user [jon; jon_approved] [] []) in
  out.1 = inr tt ∧
  table out.2 = table (mkWorld one_user [jon; jon_approved] [] []) ∧
  auth_user out.2 = auth_user (mkWorld one_user [jon; jon_approved] [] []) ∧
  post_save out.2 = post_save (mkWorld one_user [jon; jon_approved] [] []) ∧
  ∃ pk r, most_recent (is_approved_of 1)
            (table (mkWorld one_user [jon; jon_approved] [] [])) pk r ∧
    logged out.2
    = logged (mkWorld one_user [jon; jon_approved] [] [])
      ++ (if bool_decide (verified_name r = "J. Doe") then []
          else [(WARNING, FullNameNotApproved 456 pk)]).
Proof.
  split.
  - exists 1, jon_approved. simpl. done.
  - apply proctoring_noop_when_approved. exists 1, jon_approved. simpl. done.
Defined.

(** What the proctoring task does when the user has no APPROVED record but
    has a record with the event's proctored attempt id. *)
Lemma proctoring_run_existing
    now attempt_id user_id st full_name profile_name_ w :
  (∀ pk r, table w !! pk = Some r → user r = user_id → status r ≠ APPROVED) →
  (∃ pk r, table w !! pk = Some r ∧ user r = user_id
           ∧ proctored_exam_attempt_id r = Some attempt_id) →
  ∃ pk r, most_recent (has_proctored_attempt user_id attempt_id) (table w) pk r ∧
    proctoring_update_verified_name_task now attempt_id user_id st
      full_name profile_name_ w
    = (inr tt,
       mkWorld (auth_user w) (<[pk := set_status st r]> (table w))
         (logged w ++ [(INFO, UpdatedProctoredStatus user_id attempt_id st)])
         (post_save w ++ [(pk, false)])).
Proof.
  intros Hno Hex. rewrite proctoring_run, no_approved_head by done.
  destruct (existing_attempt_head _ _ _ Hex) as (x & -> & Hx).
  by exists x.1, x.2.
Qed.

(** C6. When the user has no APPROVED record but has a record with the
    event's proctored attempt id, the proctoring task sets the status of such
    a record of the user to the given status, saves that record and adds no
    record: afterwards the record at that primary key has [status] equal to
    the event's status and every other field as before. *)
Theorem proctoring_updates_existing_attempt
    now attempt_id user_id st full_name profile_name_ w :
  (∀ pk r, table w !! pk = Some r → user r = user_id → status r ≠ APPROVED) →
  (∃ pk r, table w !! pk = Some r ∧ user r = user_id
           ∧ proctored_exam_attempt_id r = Some attempt_id) →
  let out := proctoring_update_verified_name_task now attempt_id user_id st
               full_name profile_name_ w in
  out.1 = inr tt ∧
  length (table out.2) = length (table w) ∧
  ∃ pk r, table w !! pk = Some r ∧ user r = user_id
          ∧ proctored_exam_attempt_id r = Some attempt_id
          ∧ table out.2
            = <[pk := mkVerifiedName (user r) (verified_name r)
                        (profile_name r) (verification_attempt_id r)
                        (proctored_exam_attempt_id r) st (created r)]>
                (table w)
          ∧ (∃ r', table out.2 !! pk = Some r' ∧ status r' = st
                   ∧ user r' = user r ∧ verified_name r' = verified_name r
                   ∧ profile_name r' = profile_name r
                   ∧ verification_attempt_id r' = verification_attempt_id r
                   ∧ proctored_exam_attempt_id r' = proctored_exam_attempt_id r
                   ∧ created r' = created r)
          ∧ post_save out.2 = post_save w ++ [(pk, false)].
Proof.
  intros Hno Hex out. subst out.
  destruct (proctoring_run_existing now attempt_id user_id st full_name
              profile_name_ w Hno Hex) as (pk & r & (Hpk & Hq & _) & ->).
  apply has_proctored_attempt_true in Hq as [Hu Ha]. simpl.
  split; [done|]. split; [by rewrite length_insert|].
  exists pk, r. do 4 (split; [done|]). split; [|done].
  eexists.
  split; [apply list_lookup_insert_eq; by eapply lookup_lt_Some|done].
Qed.

Lemma proctoring_updates_existing_attempt_witness :
  (∀ pk r, table (mkWorld one_user [jon; jon_proctored 12] [] []) !! pk = Some r →
           user r = 1 → status r ≠ APPROVED) ∧
  (∃ pk r, table (mkWorld one_user [jon; jon_proctored 12] [] []) !! pk = Some r
           ∧ user r = 1 ∧ proctored_exam_attempt_id r = Some 456) ∧
  let out := proctoring_update_verified_name_task 20 456 1 DENIED
               "Jonathan Doe" "Jon Doe"
               (mkWorld one_user [jon; jon_proctored 12] [] []) in
  out.1 = inr tt ∧
  length (table out.2)
  = length (table (mkWorld one_user [jon; jon_proctored 12] [] [])) ∧
  ∃ pk r, table (mkWorld one_user [jon; jon_proctored 12] [] []) !! pk = Some r
          ∧ user r = 1
          ∧ proctored_exam_attempt_id r = Some 456
          ∧ table out.2
            = <[pk := mkVerifiedName (user r) (verified_name r)
                        (profile_name r) (verification_attempt_id r)
                        (proctored_exam_attempt_id r) DENIED (created r)]>
                (table (mkWorld one_user [jon; jon_proctored 12] [] []))
          ∧ (∃ r', table out.2 !! pk = Some r' ∧ status r' = DENIED
                   ∧ user r' = user r ∧ verified_name r' = verified_name r
                   ∧ profile_name r' = profile_name r
                   ∧ verification_attempt_id r' = verification_attempt_id r
                   ∧ proctored_exam_attempt_id r' = proctored_exam_attempt_id r
                   ∧ created r' = created r)
          ∧ post_save out.2
            = post_save (mkWorld one_user [jon; jon_proctored 12] [] [])
              ++ [(pk, false)].
Proof.
  assert (∀ pk r, table (mkWorld one_user [jon; jon_proctored 12] [] []) !! pk
                  = Some r → user r = 1 → status r ≠ APPROVED) as Hno.
  { by_rows. }
  assert (∃ pk r, table (mkWorld one_user [jon; jon_proctored 12] [] []) !! pk
                  = Some r ∧ user r = 1
                  ∧ proctored_exam_attempt_id r = Some 456) as Hex.
  { exists 1, (jon_proctored 12). simpl. done. }
  split; [exact Hno|]. split; [exact Hex|].
  exact (proctoring_updates_existing_attempt 20 456 1 DENIED "Jonathan Doe"
           "Jon Doe" (mkWorld one_user [jon; jon_proctored 12] [] []) Hno Hex).
Defined.

(** C10. When the user has no APPROVED record and more than one of the user's
    records carries the event's proctored attempt id, the proctoring task
    sets the status of a most recently created one of them (afterwards that
    record has the event's status and its other fields as before); every other
    record is left as it was, in particular every older record with that
    attempt id, and at least one record with that attempt id is left as it
    was. *)
Theorem proctoring_updates_only_most_recent
    now attempt_id user_id st full_name profile_name_ w :
  (∀ pk r, table w !! pk = Some r → user r = user_id → status r ≠ APPROVED) →
  (∃ pk1 pk2 r1 r2, pk1 ≠ pk2
     ∧ table w !! pk1 = Some r1 ∧ table w !! pk2 = Some r2
     ∧ has_proctored_attempt user_id attempt_id r1 = true
     ∧ has_proctored_attempt user_id attempt_id r2 = true) →
  let out := proctoring_update_verified_name_task now attempt_id user_id st
               full_name profile_name_ w in
  ∃ pk r, most_recent (has_proctored_attempt user_id attempt_id) (table w) pk r
    ∧ table out.2 !! pk
      = Some (mkVerifiedName (user r) (verified_name r) (profile_name r)
                (verification_attempt_id r) (proctored_exam_attempt_id r)
                st (created r))
    ∧ (∃ r', table out.2 !! pk = Some r' ∧ status r' = st)
    ∧ (∀ pk', pk' ≠ pk → table out.2 !! pk' = table w !! pk')
    ∧ (∀ pk' r', table w !! pk' = Some r' →
                 has_proctored_attempt user_id attempt_id r' = true →
                 created r' < created r →
                 table out.2 !! pk' = Some r')
    ∧ (∃ pk' r', pk' ≠ pk ∧ table w !! pk' = Some r'
                 ∧ has_proctored_attempt user_id attempt_id r' = true
                 ∧ table out.2 !! pk' = Some r').
Proof.
  intros Hno (pk1 & pk2 & r1 & r2 & Hne & Hpk1 & Hpk2 & Hq1 & Hq2) out.
  subst out.
  destruct (proctoring_run_existing now attempt_id user_id st full_name
              profile_name_ w Hno) as (pk & r & Hrecent & ->).
  { apply has_proctored_attempt_true in Hq1 as [Hu Ha]. by exists pk1, r1. }
  exists pk, r. simpl. destruct Hrecent as (Hpk & Hq & Hmax).
  assert (∀ pk', pk' ≠ pk →
            <[pk := set_status st r]> (table w) !! pk' = table w !! pk')
    as Hother.
  { intros pk' Hpk'. by apply list_lookup_insert_ne. }
  assert (<[pk := set_status st r]> (table w) !! pk
          = Some (mkVerifiedName (user r) (verified_name r) (profile_name r)
                    (verification_attempt_id r) (proctored_exam_attempt_id r)
                    st (created r))) as Hset.
  { apply list_lookup_insert_eq. by eapply lookup_lt_Some. }
  split; [done|]. split; [exact Hset|].
  split; [eexists; split; [exact Hset|done]|].
  split; [done|]. split.
  - intros pk' r' Hpk' Hq' Hlt. rewrite Hother; [done|].
    intros ->. rewrite Hpk in Hpk'. injection Hpk' as ->. lia.
  - destruct (decide (pk1 = pk)) as [->|Hpk1'].
    + exists pk2, r2. rewrite Hother by done. done.
    + exists pk1, r1. rewrite Hother by done. done.
Qed.

Lemma proctoring_updates_only_most_recent_witness :
  (∀ pk r, table two_proctored !! pk = Some r → user r = 1 →
           status r ≠ APPROVED) ∧
  (∃ pk1 pk2 r1 r2, pk1 ≠ pk2
     ∧ table two_proctored !! pk1 = Some r1
     ∧ table two_proctored !! pk2 = Some r2
     ∧ has_proctored_attempt 1 456 r1 = true
     ∧ has_proctored_attempt 1 456 r2 = true) ∧
  let out := proctoring_update_verified_name_task 20 456 1 DENIED
               "Jonathan Doe" "Jon Doe" two_proctored in
  ∃ pk r, most_recent (has_proctored_attempt 1 456) (table two_proctored) pk r
    ∧ table out.2 !! pk
      = Some (mkVerifiedName (user r) (verified_name r) (profile_name r)
                (verification_attempt_id r) (proctored_exam_attempt_id r)
                DENIED (created r))
    ∧ (∃ r', table out.2 !! pk = Some r' ∧ status r' = DENIED)
    ∧ (∀ pk', pk' ≠ pk → table out.2 !! pk' = table two_proctored !! pk')
    ∧ (∀ pk' r', table two_proctored !! pk' = Some r' →
                 has_proctored_attempt 1 456 r' = true →
                 created r' < created r →
                 table out.2 !! pk' = Some r')
    ∧ (∃ pk' r', pk' ≠ pk ∧ table two_proctored !! pk' = Some r'
                 ∧ has_proctored_attempt 1 456 r' = true
                 ∧ table out.2 !! pk' = Some r').
Proof.
  assert (∀ pk r, table two_proctored !! pk = Some r → user r = 1 →
                  status r ≠ APPROVED) as Hno.
  { by_rows. }
  assert (∃ pk1 pk2 r1 r2, pk1 ≠ pk2
     ∧ table two_proctored !! pk1 = Some r1
     ∧ table two_proctored !! pk2 = Some r2
     ∧ has_proctored_attempt 1 456 r1 = true
     ∧ has_proctored_attempt 1 456 r2 = true) as Htwo.
  { exists 0, 1, (jon_proctored 12), (jon_proctored 15). simpl. done. }
  split; [exact Hno|]. split; [exact Htwo|].
  exact (proctoring_updates_only_most_recent 20 456 1 DENIED "Jonathan Doe"
           "Jon Doe" two_proctored Hno Htwo).
Defined.

(** The older of two records with the same proctored attempt id keeps its
    status. *)
Example proctoring_two_records_same_attempt :
  table (proctoring_update_verified_name_task 20 456 1 DENIED
           "Jonathan Doe" "Jon Doe" two_proctored).2
  = [jon_proctored 12;
     mkVerifiedName 1 "Jonathan Doe" "Jon Doe" None (Some 456) DENIED 15].
Proof. reflexivity. Qed.

(** C7. When the user has neither an APPROVED record nor a record with the
    event's proctored attempt id: if [full_name] and [profile_name] are both
    non-empty, the proctoring task appends exactly one record, with
    [verified_name = full_name], the given [profile_name], the event's
    proctored attempt id, no verification attempt id and the given status
    (the user of the event being a row of the User table); otherwise it
    leaves the table as it was and logs at level ERROR. *)
Theorem proctoring_creates_or_reports
    now attempt_id user_id st full_name profile_name_ w :
  (∀ pk r, table w !! pk = Some r → user r = user_id → status r ≠ APPROVED) →
  (∀ pk r, table w !! pk = Some r → user r = user_id →
           proctored_exam_attempt_id r ≠ Some attempt_id) →
  let out := proctoring_update_verified_name_task now attempt_id user_id st
               full_name profile_name_ w in
  (full_name ≠ EmptyString ∧ profile_name_ ≠ EmptyString →
   user_id ∈ auth_user w →
   out = (inr tt,
          mkWorld (auth_user w)
            (table w ++ [mkVerifiedName user_id full_name profile_name_
                           None (Some attempt_id) st now])
            (logged w ++ [(INFO, CreatedForProctoredAttempt user_id st
                                   attempt_id)])
            (post_save w ++ [(length (table w), true)]))) ∧
  (¬ (full_name ≠ EmptyString ∧ profile_name_ ≠ EmptyString) →
   out = (inr tt,
          mkWorld (auth_user w) (table w)
            (logged w ++ [(ERROR, CannotCreate user_id attempt_id)])
            (post_save w))).
Proof.
  intros Hno Hnone out. subst out.
  rewrite proctoring_run, no_approved_head by done.
  assert (head (select (proctoring_existing user_id attempt_id) (table w)) = None)
    as ->.
  { apply head_select_None. intros pk r Hpk. simpl.
    apply not_true_is_false. rewrite has_proctored_attempt_true.
    intros [Hu Ha]. by eapply Hnone. }
  split.
  - intros [Hf Hp] Huser.
    apply truthy_true in Hf. apply truthy_true in Hp. rewrite Hf, Hp. simpl.
    by rewrite bool_decide_eq_true_2.
  - intros Hempty.
    destruct (truthy full_name && truthy profile_name_) eqn:Hboth; [|done].
    apply andb_true_iff in Hboth as [Hf Hp].
    destruct Hempty. by rewrite <- !truthy_true.
Qed.

Lemma proctoring_creates_or_reports_witness :
  (∀ pk r, table (mkWorld one_user [jon] [] []) !! pk = Some r → user r = 1 →
           status r ≠ APPROVED) ∧
  (∀ pk r, table (mkWorld one_user [jon] [] []) !! pk = Some r → user r = 1 →
           proctored_exam_attempt_id r ≠ Some 456) ∧
  ("Jonathan Doe" ≠ EmptyString ∧ "Jon Doe" ≠ EmptyString) ∧
  1 ∈ auth_user (mkWorld one_user [jon] [] []) ∧
  ¬ ("Jonathan Doe" ≠ EmptyString ∧ EmptyString ≠ EmptyString) ∧
  proctoring_update_verified_name_task 20 456 1 SUBMITTED
    "Jonathan Doe" "Jon Doe" (mkWorld one_user [jon] [] [])
  = (inr tt,
     mkWorld one_user
       [jon; mkVerifiedName 1 "Jonathan Doe" "Jon Doe" None (Some 456)
               SUBMITTED 20]
       [(INFO, CreatedForProctoredAttempt 1 SUBMITTED 456)]
       [(1, true)]) ∧
  proctoring_update_verified_name_task 20 456 1 SUBMITTED
    "Jonathan Doe" EmptyString (mkWorld one_user [jon] [] [])
  = (inr tt, mkWorld one_user [jon] [(ERROR, CannotCreate 1 456)] []).
Proof.
  assert (∀ pk r, table (mkWorld one_user [jon] [] []) !! pk = Some r → user r = 1 →
                  status r ≠ APPROVED) as Hno.
  { by_rows. }
  assert (∀ pk r, table (mkWorld one_user [jon] [] []) !! pk = Some r → user r = 1 →
                  proctored_exam_attempt_id r ≠ Some 456) as Hnone.
  { by_rows. }
  assert ("Jonathan Doe" ≠ EmptyString ∧ "Jon Doe" ≠ EmptyString) as Hnames.
  { split; discriminate. }
  assert (1 ∈ auth_user (mkWorld one_user [jon] [] [])) as Huser.
  { simpl. unfold one_user. apply list_elem_of_singleton. done. }
  assert (¬ ("Jonathan Doe" ≠ EmptyString ∧ EmptyString ≠ EmptyString))
    as Hempty.
  { intros [_ H]. by apply H. }
  split; [exact Hno|]. split; [exact Hnone|]. split; [exact Hnames|].
  split; [exact Huser|]. split; [exact Hempty|]. split.
  - exact (proj1 (proctoring_creates_or_reports 20 456 1 SUBMITTED
                    "Jonathan Doe" "Jon Doe" (mkWorld one_user [jon] [] [])
                    Hno Hnone) Hnames Huser).
  - exact (proj2 (proctoring_creates_or_reports 20 456 1 SUBMITTED
                    "Jonathan Doe" EmptyString (mkWorld one_user [jon] [] [])
                    Hno Hnone) Hempty).
Defined.

(** When the user of the event is not a row of the User table, the creation
    branch of the proctoring task raises at [User.objects.get] and leaves the
    world as it was. *)
Lemma proctoring_unknown_user_raises
    now attempt_id user_id st full_name profile_name_ w :
  (∀ pk r, table w !! pk = Some r → user r = user_id → status r ≠ APPROVED) →
  (∀ pk r, table w !! pk = Some r → user r = user_id →
           proctored_exam_attempt_id r ≠ Some attempt_id) →
  full_name ≠ EmptyString → profile_name_ ≠ EmptyString →
  user_id ∉ auth_user w →
  proctoring_update_verified_name_task now attempt_id user_id st
    full_name profile_name_ w
  = (inl UserDoesNotExist, w).
Proof.
  intros Hno Hnone Hf Hp Huser.
  rewrite proctoring_run, no_approved_head by done.
  assert (head (select (proctoring_existing user_id attempt_id) (table w)) = None)
    as ->.
  { apply head_select_None. intros pk r Hpk. simpl.
    apply not_true_is_false. rewrite has_proctored_attempt_true.
    intros [Hu Ha]. by eapply Hnone. }
  apply truthy_true in Hf. apply truthy_true in Hp. rewrite Hf, Hp. simpl.
  by rewrite bool_decide_eq_false_2.
Qed.

(** ** The two attempt ids exclude each other *)

Lemma one_attempt_id_set_status st r :
  one_attempt_id r → one_attempt_id (set_status st r).
Proof. done. Qed.

Lemma one_attempt_id_idv_attach attempt_id user_id photo_id_name r :
  one_attempt_id r → one_attempt_id (idv_attach attempt_id user_id photo_id_name r).
Proof.
  intros Hr. unfold idv_attach.
  destruct (has_photo_id_name user_id photo_id_name r); simpl; [|done].
  destruct (proctored_exam_attempt_id r) eqn:Hpe; simpl; [done|].
  destruct (is_none (verification_attempt_id r)); [|done].
  by right.
Qed.

Lemma one_attempt_id_idv_set_status attempt_id user_id st photo_id_name r :
  one_attempt_id r →
  one_attempt_id (idv_set_status attempt_id user_id st photo_id_name r).
Proof. intros Hr. unfold idv_set_status. by destruct (_ && _). Qed.

Lemma one_attempt_id_save st (t : list VerifiedName) (x : Instance_) :
  Forall one_attempt_id t → t !! x.1 = Some x.2 →
  Forall one_attempt_id (<[x.1 := set_status st x.2]> t).
Proof.
  intros Ht Hx. apply Forall_insert; [done|].
  apply one_attempt_id_set_status. by eapply Forall_lookup_1.
Qed.

Lemma first_newest_run p w :
  first (order_by_created_desc (objects_filter p)) w
  = (inr (head (select (order_by_created_desc (objects_filter p)) (table w))), w).
Proof. done. Qed.

Lemma idv_preserves now attempt_id user_id st photo_id_name full_name w :
  Forall one_attempt_id (table w) →
  Forall one_attempt_id
    (table (idv_update_verified_name_task now attempt_id user_id st
              photo_id_name full_name w).2).
Proof.
  intros Hw.
  destruct (decide (select (idv_verified_names user_id photo_id_name) (table w)
                    = [])) as [Hnone|Hfound].
  - rewrite idv_run_none by done.
    destruct (bool_decide (user_id ∈ auth_user w)); simpl; [|done].
    apply Forall_app. split; [done|].
    apply Forall_singleton. by right.
  - destruct (idv_run_found now attempt_id user_id st photo_id_name full_name
                w Hfound) as (info & -> & _).
    simpl. rewrite !Forall_fmap.
    eapply Forall_impl; [exact Hw|]. intros r Hr. simpl.
    by apply one_attempt_id_idv_set_status, one_attempt_id_idv_attach.
Qed.

Lemma proctoring_preserves now attempt_id user_id st full_name profile_name_ w :
  Forall one_attempt_id (table w) →
  Forall one_attempt_id
    (table (proctoring_update_verified_name_task now attempt_id user_id st
              full_name profile_name_ w).2).
Proof.
  intros Hw. rewrite proctoring_run.
  destruct (head (select (proctoring_approved user_id) (table w))) as [x|].
  { simpl. by destruct (bool_decide (verified_name x.2 = full_name)). }
  destruct (head (select (proctoring_existing user_id attempt_id) (table w)))
    as [x|] eqn:Hhd.
  { simpl. apply head_select_Some in Hhd as [Hx _]; [|done].
    by apply one_attempt_id_save. }
  destruct (truthy full_name && truthy profile_name_); [|done].
  destruct (bool_decide (user_id ∈ auth_user w)); simpl; [|done].
  apply Forall_app. split; [done|].
  apply Forall_singleton. by left.
Qed.

Lemma create_verified_name_preserves now u vn pn va pe st w :
  Forall one_attempt_id (table w) →
  Forall one_attempt_id (table (api.create_verified_name now u vn pn va pe st w).2).
Proof.
  intros Hw. unfold api.create_verified_name.
  destruct va as [a|], pe as [b|]; simpl; [done|..];
    (destruct (bool_decide (vn = EmptyString)); [done|]);
    (destruct (bool_decide (pn = EmptyString)); [done|]);
    simpl; (apply Forall_app; split; [done|]);
    apply Forall_singleton; unfold one_attempt_id; simpl; auto.
Qed.

Lemma update_verification_attempt_id_preserves now u a w :
  Forall one_attempt_id (table w) →
  Forall one_attempt_id (table (api.update_verification_attempt_id now u a w).2).
Proof.
  intros Hw. unfold api.update_verification_attempt_id, api.get_verified_name.
  unfold bind at 1. rewrite first_newest_run.
  destruct (head (select _ (table w))) as [x|] eqn:Hhd; [|done].
  apply head_select_Some in Hhd as [Hx _]; [|done].
  destruct (verification_attempt_id x.2) eqn:Hva; simpl.
  { apply Forall_app. split; [done|]. apply Forall_singleton. by right. }
  destruct (proctored_exam_attempt_id x.2) eqn:Hpe; simpl.
  { apply Forall_app. split; [done|]. apply Forall_singleton. by right. }
  apply Forall_insert; [done|]. by right.
Qed.

Lemma update_verified_name_status_preserves u st va pe w :
  Forall one_attempt_id (table w) →
  Forall one_attempt_id (table (api.update_verified_name_status u st va pe w).2).
Proof.
  intros Hw. unfold api.update_verified_name_status.
  destruct va as [a|], pe as [b|]; [done| | |done];
    unfold bind at 1; rewrite first_newest_run;
    (destruct (head (select _ (table w))) as [x|] eqn:Hhd; [|done]);
    (apply head_select_Some in Hhd as [Hx _]; [|done]);
    simpl; by apply one_attempt_id_save.
Qed.

Lemma perform_preserves op w :
  Forall one_attempt_id (table w) →
  Forall one_attempt_id (table (perform op w).2).
Proof.
  destruct op; simpl.
  - apply create_verified_name_preserves.
  - apply update_verification_attempt_id_preserves.
  - apply update_verified_name_status_preserves.
  - apply idv_preserves.
  - apply proctoring_preserves.
Qed.

Lemma perform_all_preserves ops w :
  Forall one_attempt_id (table w) →
  Forall one_attempt_id (table (perform_all ops w)).
Proof.
  revert w. induction ops as [|op ops IH]; intros w Hw; [done|].
  simpl. by apply IH, perform_preserves.
Qed.

Lemma idv_attaches_only_to_unlinked
    now attempt_id user_id st photo_id_name full_name w pk r r' :
  table w !! pk = Some r →
  table (idv_update_verified_name_task now attempt_id user_id st
           photo_id_name full_name w).2 !! pk = Some r' →
  verification_attempt_id r' ≠ verification_attempt_id r →
  verification_attempt_id r = None ∧ proctored_exam_attempt_id r = None
  ∧ verification_attempt_id r' = Some attempt_id
  ∧ proctored_exam_attempt_id r' = None.
Proof.
  intros Hpk.
  destruct (decide (select (idv_verified_names user_id photo_id_name) (table w)
                    = [])) as [Hnone|Hfound].
  - rewrite idv_run_none by done.
    destruct (bool_decide (user_id ∈ auth_user w)); simpl.
    + rewrite lookup_app_l by (by eapply lookup_lt_Some). congruence.
    + congruence.
  - destruct (idv_run_found now attempt_id user_id st photo_id_name full_name
                w Hfound) as (info & -> & _).
    simpl. rewrite !list_lookup_fmap, Hpk. simpl. intros [= <-].
    unfold idv_set_status, idv_attach.
    destruct (has_photo_id_name user_id photo_id_name r) eqn:Hq; simpl.
    2:{ rewrite Hq. simpl. done. }
    destruct (proctored_exam_attempt_id r) eqn:Hpe; simpl.
    { rewrite Hq, Hpe, andb_false_r. simpl. done. }
    destruct (verification_attempt_id r) eqn:Hva; simpl.
    { rewrite Hq, Hpe, Hva. by destruct (_ && _). }
    unfold has_photo_id_name, eq_id in *. simpl. rewrite Hq, Hpe. simpl.
    rewrite bool_decide_eq_true_2 by done. simpl. done.
Qed.

Lemma proctoring_creates_only_proctored
    now attempt_id user_id st full_name profile_name_ w pk r :
  length (table w) ≤ pk →
  table (proctoring_update_verified_name_task now attempt_id user_id st
           full_name profile_name_ w).2 !! pk = Some r →
  verification_attempt_id r = None
  ∧ proctored_exam_attempt_id r = Some attempt_id.
Proof.
  intros Hpk. rewrite proctoring_run.
  assert (table w !! pk = None) as Hnone by (by apply lookup_ge_None).
  destruct (head (select (proctoring_approved user_id) (table w))) as [x|].
  { simpl. destruct (bool_decide (verified_name x.2 = full_name)); simpl;
      congruence. }
  destruct (head (select (proctoring_existing user_id attempt_id) (table w)))
    as [x|].
  { simpl. intros Hr. apply lookup_lt_Some in Hr.
    rewrite length_insert in Hr. lia. }
  destruct (truthy full_name && truthy profile_name_); simpl; [|congruence].
  destruct (bool_decide (user_id ∈ auth_user w)); simpl; [|congruence].
  intros Hr. apply lookup_app_Some in Hr as [Hr|[_ Hr]]; [congruence|].
  apply list_lookup_singleton_Some in Hr as [_ <-]. done.
Qed.

(** C2. A record never has both attempt ids set: every operation (the three
    API functions and the two tasks), and so every sequence of them, keeps
    the table free of records with both attempt ids. In particular the IDV
    task changes the verification attempt id of a record only when the record
    had neither attempt id, and a record the proctoring task adds has the
    event's proctored attempt id and no verification attempt id. *)
Theorem attempt_ids_mutually_exclusive :
  (∀ ops w, Forall one_attempt_id (table w) →
            Forall one_attempt_id (table (perform_all ops w))) ∧
  (∀ now attempt_id user_id st photo_id_name full_name w pk r r',
     table w !! pk = Some r →
     table (idv_update_verified_name_task now attempt_id user_id st
              photo_id_name full_name w).2 !! pk = Some r' →
     verification_attempt_id r' ≠ verification_attempt_id r →
     verification_attempt_id r = None ∧ proctored_exam_attempt_id r = None
     ∧ verification_attempt_id r' = Some attempt_id
     ∧ proctored_exam_attempt_id r' = None) ∧
  (∀ now attempt_id user_id st full_name profile_name_ w pk r,
     length (table w) ≤ pk →
     table (proctoring_update_verified_name_task now attempt_id user_id st
              full_name profile_name_ w).2 !! pk = Some r →
     verification_attempt_id r = None
     ∧ proctored_exam_attempt_id r = Some attempt_id).
Proof.
  split; [exact perform_all_preserves|].
  split; [exact idv_attaches_only_to_unlinked
         |exact proctoring_creates_only_proctored].
Qed.

Lemma attempt_ids_mutually_exclusive_witness :
  Forall one_attempt_id (table (mkWorld one_user [] [] [])) ∧
  Forall one_attempt_id
    (table (perform_all sample_operations (mkWorld one_user [] [] []))) ∧
  table (mkWorld one_user [jon] [] []) !! 0 = Some jon ∧
  table (idv_update_verified_name_task 20 123 1 SUBMITTED "Jonathan Doe"
           "Jon Doe" (mkWorld one_user [jon] [] [])).2 !! 0
  = Some (mkVerifiedName 1 "Jonathan Doe" "Jon Doe" (Some 123) None
            SUBMITTED 10) ∧
  Some 123 ≠ verification_attempt_id jon ∧
  (verification_attempt_id jon = None ∧ proctored_exam_attempt_id jon = None) ∧
  length (table (mkWorld one_user [jon] [] [])) ≤ 1 ∧
  table (proctoring_update_verified_name_task 20 456 1 SUBMITTED
           "Jonathan Doe" "Jon Doe" (mkWorld one_user [jon] [] [])).2 !! 1
  = Some (mkVerifiedName 1 "Jonathan Doe" "Jon Doe" None (Some 456)
            SUBMITTED 20) ∧
  (verification_attempt_id
     (mkVerifiedName 1 "Jonathan Doe" "Jon Doe" None (Some 456) SUBMITTED 20)
   = None ∧
   proctored_exam_attempt_id
     (mkVerifiedName 1 "Jonathan Doe" "Jon Doe" None (Some 456) SUBMITTED 20)
   = Some 456).
Proof.
  destruct attempt_ids_mutually_exclusive as (Hall & Hidv & Hproctoring).
  assert (Forall one_attempt_id (table (mkWorld one_user [] [] []))) as Hempty.
  { simpl. constructor. }
  assert (table (mkWorld one_user [jon] [] []) !! 0 = Some jon) as Hjon.
  { reflexivity. }
  assert (table (idv_update_verified_name_task 20 123 1 SUBMITTED
                   "Jonathan Doe" "Jon Doe" (mkWorld one_user [jon] [] [])).2 !! 0
          = Some (mkVerifiedName 1 "Jonathan Doe" "Jon Doe" (Some 123) None
                    SUBMITTED 10)) as Hafter.
  { reflexivity. }
  assert (Some 123 ≠ verification_attempt_id jon) as Hchanged.
  { discriminate. }
  assert (length (table (mkWorld one_user [jon] [] [])) ≤ 1) as Hnew.
  { simpl. lia. }
  assert (table (proctoring_update_verified_name_task 20 456 1 SUBMITTED
                   "Jonathan Doe" "Jon Doe" (mkWorld one_user [jon] [] [])).2 !! 1
          = Some (mkVerifiedName 1 "Jonathan Doe" "Jon Doe" None (Some 456)
                    SUBMITTED 20)) as Hcreated.
  { reflexivity. }
  split; [exact Hempty|].
  split; [exact (Hall sample_operations _ Hempty)|].
  split; [exact Hjon|]. split; [exact Hafter|]. split; [exact Hchanged|].
  split.
  { destruct (Hidv 20 123 1 SUBMITTED "Jonathan Doe" "Jon Doe" _ 0 jon _
                Hjon Hafter Hchanged) as (H1 & H2 & _). by split. }
  split; [exact Hnew|]. split; [exact Hcreated|].
  exact (Hproctoring 20 456 1 SUBMITTED "Jonathan Doe" "Jon Doe" _ 1 _
           Hnew Hcreated).
Defined.

(** ** Names at creation *)

(** A record the proctoring task adds has a non-empty [verified_name] and a
    non-empty [profile_name]: the task tests both before it creates. *)
Lemma proctoring_created_names_nonempty
    now attempt_id user_id st full_name profile_name_ w pk r :
  length (table w) ≤ pk →
  table (proctoring_update_verified_name_task now attempt_id user_id st
           full_name profile_name_ w).2 !! pk = Some r →
  verified_name r ≠ EmptyString ∧ profile_name r ≠ EmptyString.
Proof.
  intros Hpk. rewrite proctoring_run.
  assert (table w !! pk = None) as Hnone by (by apply lookup_ge_None).
  destruct (head (select (proctoring_approved user_id) (table w))) as [x|].
  { simpl. destruct (bool_decide (verified_name x.2 = full_name)); simpl;
      congruence. }
  destruct (head (select (proctoring_existing user_id attempt_id) (table w)))
    as [x|].
  { simpl. intros Hr. apply lookup_lt_Some in Hr.
    rewrite length_insert in Hr. lia. }
  destruct (truthy full_name && truthy profile_name_) eqn:Hboth; simpl;
    [|congruence].
  apply andb_true_iff in Hboth as [Hf Hp].
  destruct (bool_decide (user_id ∈ auth_user w)); simpl; [|congruence].
  intros Hr. apply lookup_app_Some in Hr as [Hr|[_ Hr]]; [congruence|].
  apply list_lookup_singleton_Some in Hr as [_ <-]. simpl.
  by rewrite <- !truthy_true.
Qed.

(** C3. The creation branch of the IDV task copies [photo_id_name] and
    [full_name] into the new record without testing them: for a user without
    records, an event with an empty [full_name] creates a record with an
    empty [profile_name], and an event with an empty [photo_id_name] creates
    a record with an empty [verified_name]. *)
Theorem idv_creates_record_with_empty_name :
  table (idv_update_verified_name_task 20 123 1 SUBMITTED
           "Jonathan Doe" EmptyString (mkWorld one_user [] [] [])).2
  = [mkVerifiedName 1 "Jonathan Doe" EmptyString (Some 123) None SUBMITTED 20]
  ∧
  table (idv_update_verified_name_task 20 123 1 SUBMITTED
           EmptyString "Jon Doe" (mkWorld one_user [] [] [])).2
  = [mkVerifiedName 1 EmptyString "Jon Doe" (Some 123) None SUBMITTED 20].
Proof. split; reflexivity. Qed.

(** ** The API *)

(** C8. [create_verified_name] raises [VerifiedNameMultipleAttemptIds] when
    both attempt ids are given; when they are not both given it raises
    [VerifiedNameEmptyString] for [verified_name] if that is empty, else for
    [profile_name] if that is empty; whenever it raises, the world is as
    before; otherwise it returns and the table has exactly one more record,
    the one described by the arguments. *)
Theorem create_verified_name_outcomes now u vn pn va pe st w :
  let out := api.create_verified_name now u vn pn va pe st w in
  (is_Some va ∧ is_Some pe →
   out = (inl VerifiedNameMultipleAttemptIds, w)) ∧
  (¬ (is_Some va ∧ is_Some pe) → vn = EmptyString →
   out = (inl (VerifiedNameEmptyString "verified_name" u), w)) ∧
  (¬ (is_Some va ∧ is_Some pe) → vn ≠ EmptyString → pn = EmptyString →
   out = (inl (VerifiedNameEmptyString "profile_name" u), w)) ∧
  (¬ (is_Some va ∧ is_Some pe) → vn ≠ EmptyString → pn ≠ EmptyString →
   out = (inr tt,
          mkWorld (auth_user w) (table w ++ [mkVerifiedName u vn pn va pe st now])
            (logged w) (post_save w ++ [(length (table w), true)]))).
Proof.
  intros out. subst out. unfold api.create_verified_name.
  assert (negb (is_none va) && negb (is_none pe) = true
          ↔ is_Some va ∧ is_Some pe) as Hboth.
  { destruct va, pe; simpl; split; try done; intros [[? ?] [? ?]]; done. }
  destruct (negb (is_none va) && negb (is_none pe)).
  { repeat split; try done; intros Hn; destruct Hn; by apply Hboth. }
  split; [intros Hb; apply Hboth in Hb; done|].
  destruct (bool_decide_reflect (vn = EmptyString)) as [Hvn|Hvn].
  { repeat split; done. }
  destruct (bool_decide_reflect (pn = EmptyString)) as [Hpn|Hpn].
  { repeat split; done. }
  repeat split; done.
Qed.

Lemma create_verified_name_outcomes_witness :
  (is_Some (Some 123) ∧ is_Some (Some 456)) ∧
  api.create_verified_name 10 1 "Jonathan Doe" "Jon Doe" (Some 123) (Some 456)
    PENDING (mkWorld one_user [] [] [])
  = (inl VerifiedNameMultipleAttemptIds, mkWorld one_user [] [] []) ∧
  ¬ (is_Some (@None nat) ∧ is_Some (@None nat)) ∧
  api.create_verified_name 10 1 EmptyString "Jon Doe" None None
    PENDING (mkWorld one_user [] [] [])
  = (inl (VerifiedNameEmptyString "verified_name" 1), mkWorld one_user [] [] []) ∧
  "Jonathan Doe" ≠ EmptyString ∧
  api.create_verified_name 10 1 "Jonathan Doe" EmptyString None None
    PENDING (mkWorld one_user [] [] [])
  = (inl (VerifiedNameEmptyString "profile_name" 1), mkWorld one_user [] [] []) ∧
  "Jon Doe" ≠ EmptyString ∧
  api.create_verified_name 10 1 "Jonathan Doe" "Jon Doe" None None
    PENDING (mkWorld one_user [] [] [])
  = (inr tt, mkWorld one_user [jon] [] [(0, true)]).
Proof.
  assert (is_Some (Some 123) ∧ is_Some (Some 456)) as Hboth.
  { split; eexists; reflexivity. }
  assert (¬ (is_Some (@None nat) ∧ is_Some (@None nat))) as Hnot.
  { intros [[x Hx] _]. discriminate Hx. }
  assert ("Jonathan Doe" ≠ EmptyString) as Hvn by discriminate.
  assert ("Jon Doe" ≠ EmptyString) as Hpn by discriminate.
  split; [exact Hboth|]. split.
  { exact (proj1 (create_verified_name_outcomes 10 1 "Jonathan Doe" "Jon Doe"
                    (Some 123) (Some 456) PENDING (mkWorld one_user [] [] []))
             Hboth). }
  split; [exact Hnot|]. split.
  { exact (proj1 (proj2 (create_verified_name_outcomes 10 1 EmptyString
                           "Jon Doe" None None PENDING
                           (mkWorld one_user [] [] [])))
             Hnot eq_refl). }
  split; [exact Hvn|]. split.
  { exact (proj1 (proj2 (proj2 (create_verified_name_outcomes 10 1
                                  "Jonathan Doe" EmptyString None None PENDING
                                  (mkWorld one_user [] [] []))))
             Hnot Hvn eq_refl). }
  split; [exact Hpn|].
  exact (proj2 (proj2 (proj2 (create_verified_name_outcomes 10 1
                                "Jonathan Doe" "Jon Doe" None None PENDING
                                (mkWorld one_user [] [] []))))
           Hnot Hvn Hpn).
Defined.

Lemma records_of_insert u (t : list VerifiedName) pk r r' :
  t !! pk = Some r → user r' = user r →
  records_of u (<[pk := r']> t) = records_of u t.
Proof.
  unfold records_of. revert pk.
  induction t as [|x t IH]; intros pk Hpk Hu; [done|].
  destruct pk as [|pk]; simpl in *.
  - injection Hpk as ->. rewrite !filter_cons, Hu.
    destruct (decide (user r = u)); done.
  - rewrite !filter_cons.
    destruct (decide (user x = u)); simpl; by rewrite (IH pk).
Qed.

Lemma records_of_app u (t : list VerifiedName) r :
  user r = u → records_of u (t ++ [r]) = S (records_of u t).
Proof.
  intros Hu. unfold records_of.
  rewrite filter_app, length_app, filter_cons_True by done.
  simpl. lia.
Qed.

Lemma most_recent_ext p p' (t : list VerifiedName) pk r :
  (∀ x, p x = p' x) → most_recent p t pk r → most_recent p' t pk r.
Proof.
  intros Hext (Hpk & Hp & Hmax). split; [done|].
  split; [by rewrite <- Hext|].
  intros pk' r' Hpk' Hp'. apply (Hmax pk' r' Hpk'). by rewrite Hext.
Qed.

Lemma update_verification_attempt_id_run now u attempt_id w :
  api.update_verification_attempt_id now u attempt_id w
  = match head (select (recent_of u) (table w)) with
    | None => (inl VerifiedNameDoesNotExist, w)
    | Some x =>
        if negb (is_none (verification_attempt_id x.2))
           || negb (is_none (proctored_exam_attempt_id x.2))
        then (inr tt,
              mkWorld (auth_user w)
                (table w ++ [mkVerifiedName u (verified_name x.2)
                               (profile_name x.2) (Some attempt_id) None
                               (status x.2) now])
                (logged w) (post_save w ++ [(length (table w), true)]))
        else (inr tt,
              mkWorld (auth_user w)
                (<[x.1 := set_verification_attempt_id (Some attempt_id) x.2]>
                   (table w))
                (logged w) (post_save w ++ [(x.1, false)]))
    end.
Proof.
  unfold api.update_verification_attempt_id, api.get_verified_name.
  unfold bind at 1. rewrite first_newest_run.
  fold (recent_of u).
  destruct (head (select (recent_of u) (table w))) as [x|]; [|done].
  by destruct (_ || _).
Qed.

(** C9. [update_verification_attempt_id]: when the user has no record it
    raises [VerifiedNameDoesNotExist] and the world is as before. Otherwise
    it takes a most recently created record of the user: if that record has
    neither attempt id, its [verification_attempt_id] is set in place (the
    record at that primary key then has [verification_attempt_id] equal to
    the given attempt id and its other fields as before) and the number of
    records is as before; if it has an attempt id, one record is
    appended that copies [verified_name], [profile_name] and [status] and
    carries the new [verification_attempt_id], and the number of records of
    the user grows by exactly one. *)
Theorem update_verification_attempt_id_outcomes now u attempt_id w :
  let out := api.update_verification_attempt_id now u attempt_id w in
  ((∀ pk r, table w !! pk = Some r → user r ≠ u) →
   out = (inl VerifiedNameDoesNotExist, w)) ∧
  ((∃ pk r, table w !! pk = Some r ∧ user r = u) →
   ∃ pk r, most_recent (is_record_of u) (table w) pk r ∧
     ((verification_attempt_id r = None ∧ proctored_exam_attempt_id r = None
       ∧ out = (inr tt,
                mkWorld (auth_user w)
                  (<[pk := mkVerifiedName (user r) (verified_name r)
                             (profile_name r) (Some attempt_id)
                             (proctored_exam_attempt_id r) (status r)
                             (created r)]>
                     (table w))
                  (logged w) (post_save w ++ [(pk, false)]))
       ∧ (∃ r', table out.2 !! pk = Some r'
                ∧ verification_attempt_id r' = Some attempt_id
                ∧ proctored_exam_attempt_id r' = None
                ∧ verified_name r' = verified_name r
                ∧ profile_name r' = profile_name r
                ∧ status r' = status r)
       ∧ length (table out.2) = length (table w)
       ∧ records_of u (table out.2) = records_of u (table w))
      ∨
      ((verification_attempt_id r ≠ None ∨ proctored_exam_attempt_id r ≠ None)
       ∧ out = (inr tt,
                mkWorld (auth_user w)
                  (table w ++ [mkVerifiedName u (verified_name r)
                                 (profile_name r) (Some attempt_id) None
                                 (status r) now])
                  (logged w) (post_save w ++ [(length (table w), true)]))
       ∧ length (table out.2) = S (length (table w))
       ∧ records_of u (table out.2) = S (records_of u (table w))))).
Proof.
  intros out. subst out. rewrite update_verification_attempt_id_run.
  assert (∀ x, qs_where (recent_of u) x = is_record_of u x) as Hq.
  { intros x. simpl. unfold is_record_of. by rewrite andb_true_r. }
  split.
  - intros Hno.
    assert (head (select (recent_of u) (table w)) = None) as ->; [|done].
    apply head_select_None. intros pk r Hpk. rewrite Hq.
    apply bool_decide_eq_false_2. by eapply Hno.
  - intros (pk0 & r0 & Hpk0 & Hu0).
    destruct (head (select (recent_of u) (table w))) as [x|] eqn:Hhd.
    2:{ rewrite head_select_None in Hhd. specialize (Hhd _ _ Hpk0).
        rewrite Hq in Hhd. unfold is_record_of in Hhd.
        by rewrite bool_decide_eq_true_2 in Hhd. }
    apply head_select_Some in Hhd; [|done].
    apply (most_recent_ext _ (is_record_of u)) in Hhd; [|done].
    exists x.1, x.2. split; [done|].
    destruct Hhd as (Hx & Hux & _).
    apply bool_decide_eq_true in Hux.
    destruct (verification_attempt_id x.2) as [a|] eqn:Hva; simpl.
    { right. split; [by left|]. split; [done|].
      split; [rewrite length_app; simpl; lia|]. by apply records_of_app. }
    destruct (proctored_exam_attempt_id x.2) as [b|] eqn:Hpe; simpl.
    { right. split; [by right|]. split; [done|].
      split; [rewrite length_app; simpl; lia|]. by apply records_of_app. }
    left. split; [done|]. split; [done|].
    assert (set_verification_attempt_id (Some attempt_id) x.2
            = mkVerifiedName (user x.2) (verified_name x.2) (profile_name x.2)
                (Some attempt_id) None (status x.2) (created x.2)) as ->.
    { unfold set_verification_attempt_id. by rewrite Hpe. }
    split; [done|]. split.
    { eexists.
      split; [apply list_lookup_insert_eq; by eapply lookup_lt_Some|done]. }
    split; [by rewrite length_insert|].
    by eapply records_of_insert.
Qed.

Lemma update_verification_attempt_id_outcomes_witness :
  (∀ pk r, table (mkWorld one_user [] [] []) !! pk = Some r → user r ≠ 1) ∧
  api.update_verification_attempt_id 20 1 789 (mkWorld one_user [] [] [])
  = (inl VerifiedNameDoesNotExist, mkWorld one_user [] [] []) ∧
  (∃ pk r, table (mkWorld one_user [jon; jon_proctored 12] [] []) !! pk = Some r
           ∧ user r = 1) ∧
  (let w := mkWorld one_user [jon; jon_proctored 12] [] [] in
   let out := api.update_verification_attempt_id 20 1 789 w in
   ∃ pk r, most_recent (is_record_of 1) (table w) pk r ∧
     ((verification_attempt_id r = None ∧ proctored_exam_attempt_id r = None
       ∧ out = (inr tt,
                mkWorld (auth_user w)
                  (<[pk := mkVerifiedName (user r) (verified_name r)
                             (profile_name r) (Some 789)
                             (proctored_exam_attempt_id r) (status r)
                             (created r)]>
                     (table w))
                  (logged w) (post_save w ++ [(pk, false)]))
       ∧ (∃ r', table out.2 !! pk = Some r'
                ∧ verification_attempt_id r' = Some 789
                ∧ proctored_exam_attempt_id r' = None
                ∧ verified_name r' = verified_name r
                ∧ profile_name r' = profile_name r
                ∧ status r' = status r)
       ∧ length (table out.2) = length (table w)
       ∧ records_of 1 (table out.2) = records_of 1 (table w))
      ∨
      ((verification_attempt_id r ≠ None ∨ proctored_exam_attempt_id r ≠ None)
       ∧ out = (inr tt,
                mkWorld (auth_user w)
                  (table w ++ [mkVerifiedName 1 (verified_name r)
                                 (profile_name r) (Some 789) None
                                 (status r) 20])
                  (logged w) (post_save w ++ [(length (table w), true)]))
       ∧ length (table out.2) = S (length (table w))
       ∧ records_of 1 (table out.2) = S (records_of 1 (table w))))) ∧
  (∃ pk r, table (mkWorld one_user [jon] [] []) !! pk = Some r ∧ user r = 1) ∧
  api.update_verification_attempt_id 20 1 123 (mkWorld one_user [jon] [] [])
  = (inr tt,
     mkWorld one_user
       [mkVerifiedName 1 "Jonathan Doe" "Jon Doe" (Some 123) None PENDING 10]
       [] [(0, false)]) ∧
  api.update_verification_attempt_id 20 1 789
    (mkWorld one_user [jon_proctored 12] [] [])
  = (inr tt,
     mkWorld one_user
       [jon_proctored 12;
        mkVerifiedName 1 "Jonathan Doe" "Jon Doe" (Some 789) None PENDING 20]
       [] [(1, true)]).
Proof.
  assert (∀ pk r, table (mkWorld one_user [] [] []) !! pk = Some r → user r ≠ 1)
    as Hno.
  { by_rows. }
  assert (∃ pk r, table (mkWorld one_user [jon; jon_proctored 12] [] []) !! pk
                  = Some r ∧ user r = 1) as Hsome.
  { exists 0, jon. done. }
  assert (∃ pk r, table (mkWorld one_user [jon] [] []) !! pk = Some r
                  ∧ user r = 1) as Hunlinked.
  { exists 0, jon. done. }
  assert (∃ pk r, table (mkWorld one_user [jon_proctored 12] [] []) !! pk
                  = Some r ∧ user r = 1) as Hlinked.
  { exists 0, (jon_proctored 12). done. }
  split; [exact Hno|]. split.
  { exact (proj1 (update_verification_attempt_id_outcomes 20 1 789
                    (mkWorld one_user [] [] [])) Hno). }
  split; [exact Hsome|]. split.
  { exact (proj2 (update_verification_attempt_id_outcomes 20 1 789
                    (mkWorld one_user [jon; jon_proctored 12] [] [])) Hsome). }
  split; [exact Hunlinked|]. split.
  - destruct (proj2 (update_verification_attempt_id_outcomes 20 1 123
                       (mkWorld one_user [jon] [] [])) Hunlinked)
      as (pk & r & (Hpk & _) & [(_ & _ & Hout & _)|(Hset & _)]).
    + destruct pk as [|pk]; simpl in Hpk; [|done].
      injection Hpk as <-. exact Hout.
    + destruct pk as [|pk]; simpl in Hpk; [|done].
      injection Hpk as <-. by destruct Hset.
  - destruct (proj2 (update_verification_attempt_id_outcomes 20 1 789
                       (mkWorld one_user [jon_proctored 12] [] [])) Hlinked)
      as (pk & r & (Hpk & _) & [(_ & Hpe & _)|(_ & Hout & _)]).
    + destruct pk as [|pk]; simpl in Hpk; [|done].
      injection Hpk as <-. done.
    + destruct pk as [|pk]; simpl in Hpk; [|done].
      injection Hpk as <-. exact Hout.
Defined.

(** The two cases of [test_update_verification_attempt_id] and
    [test_update_verification_attempt_id_already_exists]. *)
Example update_verification_attempt_id_in_place :
  api.update_verification_attempt_id 20 1 123
    (mkWorld one_user [jon; mkVerifiedName 1 "Jonathan Doe" "Jon Doe" None None
                              PENDING 11] [] [])
  = (inr tt,
     mkWorld one_user
       [jon; mkVerifiedName 1 "Jonathan Doe" "Jon Doe" (Some 123) None
               PENDING 11] [] [(1, false)]).
Proof. reflexivity. Qed.

Example update_verification_attempt_id_new_record :
  api.update_verification_attempt_id 20 1 789
    (mkWorld one_user [jon_proctored 12] [] [])
  = (inr tt,
     mkWorld one_user
       [jon_proctored 12;
        mkVerifiedName 1 "Jonathan Doe" "Jon Doe" (Some 789) None PENDING 20]
       [] [(1, true)]).
Proof. reflexivity. Qed.

(** ** Further properties of the IDV task *)

(** Evaluates the two steps on a record that is known to be the user's and
    to carry the name of the photo id. *)
Ltac idv_step_eval Hu Hn :=
  unfold idv_step, idv_attach, idv_set_status, has_photo_id_name, eq_id;
  simpl;
  repeat (first [ rewrite (bool_decide_eq_true_2 _ Hu)
                | rewrite (bool_decide_eq_true_2 _ Hn)
                | rewrite (bool_decide_eq_true_2 (Some _ = Some _) eq_refl) ];
          simpl).

Lemma idv_attach_cases attempt_id user_id photo_id_name r :
  idv_attach attempt_id user_id photo_id_name r = r
  ∨ (user r = user_id ∧ verified_name r = photo_id_name
     ∧ proctored_exam_attempt_id r = None ∧ verification_attempt_id r = None
     ∧ idv_attach attempt_id user_id photo_id_name r
       = set_verification_attempt_id (Some attempt_id) r).
Proof.
  unfold idv_attach.
  destruct (has_photo_id_name user_id photo_id_name r) eqn:Hq; simpl;
    [|by left].
  apply has_photo_id_name_true in Hq as [Hu Hn].
  destruct (proctored_exam_attempt_id r) eqn:Hpe; simpl; [by left|].
  destruct (verification_attempt_id r) eqn:Hva; simpl; [by left|].
  by right.
Qed.

Lemma idv_set_status_cases attempt_id user_id st photo_id_name r :
  idv_set_status attempt_id user_id st photo_id_name r = r
  ∨ (user r = user_id ∧ verified_name r = photo_id_name
     ∧ proctored_exam_attempt_id r = None
     ∧ verification_attempt_id r = Some attempt_id
     ∧ idv_set_status attempt_id user_id st photo_id_name r = set_status st r).
Proof.
  unfold idv_set_status.
  destruct (has_photo_id_name user_id photo_id_name r) eqn:Hq; simpl;
    [|by left].
  apply has_photo_id_name_true in Hq as [Hu Hn].
  unfold eq_id.
  destruct (bool_decide_reflect (verification_attempt_id r = Some attempt_id))
    as [Hva|Hva]; simpl; [|by left].
  destruct (proctored_exam_attempt_id r) eqn:Hpe; simpl; [by left|].
  by right.
Qed.

Lemma idv_step_spec attempt_id user_id st photo_id_name r :
  let r' := idv_step attempt_id user_id st photo_id_name r in
  (r' = r ∨
   (user r = user_id ∧ verified_name r = photo_id_name
    ∧ proctored_exam_attempt_id r = None
    ∧ (verification_attempt_id r = None
       ∨ verification_attempt_id r = Some attempt_id)
    ∧ r' = mkVerifiedName (user r) (verified_name r) (profile_name r)
             (Some attempt_id) None st (created r))).
Proof.
  intros r'. subst r'. unfold idv_step.
  destruct (idv_attach_cases attempt_id user_id photo_id_name r)
    as [->|(Hu & Hn & Hpe & Hva & ->)].
  - destruct (idv_set_status_cases attempt_id user_id st photo_id_name r)
      as [->|(Hu & Hn & Hpe & Hva & ->)]; [by left|].
    right. repeat split; auto.
    unfold set_status. by rewrite Hpe, Hva.
  - right. repeat split; auto.
    unfold idv_set_status, has_photo_id_name, eq_id. simpl.
    rewrite Hpe, !bool_decide_eq_true_2 by done. simpl.
    unfold set_status. simpl. by rewrite Hpe.
Qed.

Lemma idv_table_cases now attempt_id user_id st photo_id_name full_name w :
  let out := idv_update_verified_name_task now attempt_id user_id st
               photo_id_name full_name w in
  (select (idv_verified_names user_id photo_id_name) (table w) ≠ []
   ∧ out.1 = inr tt
   ∧ table out.2 = (idv_step attempt_id user_id st photo_id_name <$> table w))
  ∨ (select (idv_verified_names user_id photo_id_name) (table w) = []
     ∧ (user_id ∈ auth_user w)
     ∧ out.1 = inr tt
     ∧ table out.2 = (table w ++ [mkVerifiedName user_id photo_id_name full_name
                                    (Some attempt_id) None st now]))
  ∨ (select (idv_verified_names user_id photo_id_name) (table w) = []
     ∧ (user_id ∉ auth_user w)
     ∧ out.1 = inl UserDoesNotExist
     ∧ table out.2 = table w).
Proof.
  intros out. subst out.
  destruct (decide (select (idv_verified_names user_id photo_id_name) (table w)
                    = [])) as [Hnone|Hfound].
  - right. rewrite idv_run_none by done.
    destruct (bool_decide_reflect (user_id ∈ auth_user w)); [left|right]; done.
  - left.
    destruct (idv_run_found now attempt_id user_id st photo_id_name full_name
                w Hfound) as (info & -> & _).
    simpl. split; [done|]. split; [done|].
    by rewrite <- list_fmap_compose.
Qed.

Lemma idv_auth_user now attempt_id user_id st photo_id_name full_name w :
  auth_user (idv_update_verified_name_task now attempt_id user_id st
               photo_id_name full_name w).2 = auth_user w.
Proof.
  destruct (decide (select (idv_verified_names user_id photo_id_name) (table w)
                    = [])) as [Hnone|Hfound].
  - rewrite idv_run_none by done.
    by destruct (bool_decide (user_id ∈ auth_user w)).
  - by destruct (idv_run_found now attempt_id user_id st photo_id_name full_name
                   w Hfound) as (info & -> & _).
Qed.

Lemma idv_step_has_photo_id_name attempt_id user_id st photo_id_name r :
  has_photo_id_name user_id photo_id_name
    (idv_step attempt_id user_id st photo_id_name r)
  = has_photo_id_name user_id photo_id_name r.
Proof.
  destruct (idv_step_spec attempt_id user_id st photo_id_name r)
    as [->|(_ & _ & _ & _ & ->)]; [done|].
  unfold has_photo_id_name. done.
Qed.

Lemma idv_step_idemp attempt_id user_id st photo_id_name r :
  idv_step attempt_id user_id st photo_id_name
    (idv_step attempt_id user_id st photo_id_name r)
  = idv_step attempt_id user_id st photo_id_name r.
Proof.
  destruct (idv_step_spec attempt_id user_id st photo_id_name r)
    as [Heq|(Hu & Hn & _ & _ & Heq)].
  { rewrite Heq. exact Heq. }
  rewrite Heq. by idv_step_eval Hu Hn.
Qed.

Lemma idv_step_no_match attempt_id user_id st photo_id_name
    (t : list VerifiedName) :
  select (idv_verified_names user_id photo_id_name) t = [] →
  idv_step attempt_id user_id st photo_id_name <$> t = t.
Proof.
  intros Hnone. rewrite <- (list_fmap_id t) at 2.
  apply list_fmap_ext. intros pk r Hpk.
  destruct (idv_step_spec attempt_id user_id st photo_id_name r)
    as [->|(Hu & Hn & _)]; [done|].
  rewrite select_nil in Hnone. specialize (Hnone _ _ Hpk). simpl in Hnone.
  apply not_true_iff_false in Hnone. destruct Hnone.
  by apply has_photo_id_name_true.
Qed.

Lemma idv_found_after_step attempt_id user_id st photo_id_name
    (t : list VerifiedName) :
  select (idv_verified_names user_id photo_id_name) t ≠ [] →
  select (idv_verified_names user_id photo_id_name)
    (idv_step attempt_id user_id st photo_id_name <$> t) ≠ [].
Proof.
  intros Hfound Hnone. apply Hfound. apply select_nil. intros pk r Hpk.
  rewrite select_nil in Hnone.
  specialize (Hnone pk (idv_step attempt_id user_id st photo_id_name r)).
  simpl in *. rewrite idv_step_has_photo_id_name in Hnone.
  apply Hnone. by rewrite list_lookup_fmap, Hpk.
Qed.

Lemma idv_found_after_create user_id photo_id_name (t : list VerifiedName) r :
  user r = user_id → verified_name r = photo_id_name →
  select (idv_verified_names user_id photo_id_name) (t ++ [r]) ≠ [].
Proof.
  intros Hu Hn Hnone. rewrite select_nil in Hnone.
  specialize (Hnone (length t) r). simpl in Hnone.
  rewrite list_lookup_middle in Hnone by done.
  specialize (Hnone eq_refl). apply not_true_iff_false in Hnone.
  destruct Hnone. by apply has_photo_id_name_true.
Qed.

(** X1. Replaying an IDV event, at any later time, leaves the table as the
    first run left it. *)
Theorem idv_replay_idempotent
    now now' attempt_id user_id st photo_id_name full_name w :
  let w1 := (idv_update_verified_name_task now attempt_id user_id st
               photo_id_name full_name w).2 in
  table (idv_update_verified_name_task now' attempt_id user_id st
           photo_id_name full_name w1).2
  = table w1.
Proof.
  intros w1.
  pose proof (idv_auth_user now attempt_id user_id st photo_id_name full_name w)
    as Husers. fold w1 in Husers.
  destruct (idv_table_cases now attempt_id user_id st photo_id_name full_name w)
    as [(Hfound & _ & Ht1)|[(Hnone & Huser & _ & Ht1)|(Hnone & Huser & _ & Ht1)]];
    fold w1 in Ht1.
  - destruct (idv_table_cases now' attempt_id user_id st photo_id_name
                full_name w1)
      as [(_ & _ & ->)|[(Hnone' & _)|(Hnone' & _)]].
    + rewrite Ht1, <- list_fmap_compose.
      apply list_fmap_ext. intros pk r _. apply idv_step_idemp.
    + rewrite Ht1 in Hnone'. by apply idv_found_after_step in Hnone'.
    + rewrite Ht1 in Hnone'. by apply idv_found_after_step in Hnone'.
  - destruct (idv_table_cases now' attempt_id user_id st photo_id_name
                full_name w1)
      as [(_ & _ & ->)|[(Hnone' & _)|(Hnone' & _)]].
    + rewrite Ht1, fmap_app, idv_step_no_match by done. f_equal. simpl.
      f_equal.
      by idv_step_eval (eq_refl user_id) (eq_refl photo_id_name).
    + rewrite Ht1 in Hnone'. by apply idv_found_after_create in Hnone'.
    + rewrite Ht1 in Hnone'. by apply idv_found_after_create in Hnone'.
  - destruct (idv_table_cases now' attempt_id user_id st photo_id_name
                full_name w1)
      as [(Hfound' & _)|[(_ & Huser' & _)|(_ & _ & _ & ->)]]; [| |done].
    + by rewrite Ht1 in Hfound'.
    + by rewrite Husers in Huser'.
Qed.

(** X3. The IDV task leaves every existing record at its primary key with its
    user, names, proctored attempt id and creation time. A record it changes
    is one of the user's with the name of the photo id and no proctored
    attempt id, whose verification attempt id was unset or already the
    event's; afterwards it carries the event's attempt id and status. *)
Theorem idv_changes_only_link_and_status
    now attempt_id user_id st photo_id_name full_name w pk r :
  table w !! pk = Some r →
  ∃ r', table (idv_update_verified_name_task now attempt_id user_id st
                 photo_id_name full_name w).2 !! pk = Some r'
    ∧ user r' = user r ∧ verified_name r' = verified_name r
    ∧ profile_name r' = profile_name r
    ∧ proctored_exam_attempt_id r' = proctored_exam_attempt_id r
    ∧ created r' = created r
    ∧ (r' ≠ r →
       user r = user_id ∧ verified_name r = photo_id_name
       ∧ proctored_exam_attempt_id r = None
       ∧ (verification_attempt_id r = None
          ∨ verification_attempt_id r = Some attempt_id)
       ∧ verification_attempt_id r' = Some attempt_id
       ∧ status r' = st).
Proof.
  intros Hpk.
  destruct (idv_table_cases now attempt_id user_id st photo_id_name full_name w)
    as [(_ & _ & ->)|[(_ & _ & _ & ->)|(_ & _ & _ & ->)]].
  - rewrite list_lookup_fmap, Hpk. simpl. eexists. split; [done|].
    destruct (idv_step_spec attempt_id user_id st photo_id_name r)
      as [->|(Hu & Hn & Hpe & Hva & ->)]; simpl; [done|].
    by rewrite Hpe.
  - exists r. rewrite lookup_app_l by (by eapply lookup_lt_Some). done.
  - by exists r.
Qed.

Lemma idv_changes_only_link_and_status_witness :
  table (mkWorld one_user [jon_proctored 12; jon] [] []) !! 1 = Some jon ∧
  ∃ r', table (idv_update_verified_name_task 20 123 1 APPROVED
                 "Jonathan Doe" "Jon Doe"
                 (mkWorld one_user [jon_proctored 12; jon] [] [])).2 !! 1
        = Some r'
    ∧ user r' = user jon ∧ verified_name r' = verified_name jon
    ∧ profile_name r' = profile_name jon
    ∧ proctored_exam_attempt_id r' = proctored_exam_attempt_id jon
    ∧ created r' = created jon
    ∧ (r' ≠ jon →
       user jon = 1 ∧ verified_name jon = "Jonathan Doe"
       ∧ proctored_exam_attempt_id jon = None
       ∧ (verification_attempt_id jon = None
          ∨ verification_attempt_id jon = Some 123)
       ∧ verification_attempt_id r' = Some 123
       ∧ status r' = APPROVED).
Proof.
  split; [reflexivity|].
  apply idv_changes_only_link_and_status. reflexivity.
Defined.

(** X4. When the user has records with the name of the photo id but each of
    them is linked to another attempt (a proctored one, or a different
    verification attempt), the IDV task returns normally and the event leaves
    no trace in the table: nothing is attached, updated, saved or created. *)
Theorem idv_event_dropped_when_all_linked
    now attempt_id user_id st photo_id_name full_name w :
  (∃ pk r, table w !! pk = Some r ∧ user r = user_id
           ∧ verified_name r = photo_id_name) →
  (∀ pk r, table w !! pk = Some r → user r = user_id →
           verified_name r = photo_id_name → linked_elsewhere attempt_id r) →
  let out := idv_update_verified_name_task now attempt_id user_id st
               photo_id_name full_name w in
  out.1 = inr tt ∧ table out.2 = table w ∧ post_save out.2 = post_save w
  ∧ auth_user out.2 = auth_user w.
Proof.
  intros (pk0 & r0 & Hpk0 & Hu0 & Hn0) Hlinked out. subst out.
  assert (∀ pk r, table w !! pk = Some r →
            idv_attach attempt_id user_id photo_id_name r = r
            ∧ qs_where (idv_to_update user_id attempt_id photo_id_name) r = false)
    as Hsame.
  { intros pk r Hpk. split.
    - destruct (idv_attach_cases attempt_id user_id photo_id_name r)
        as [?|(Hu & Hn & Hpe & Hva & _)]; [done|].
      destruct (Hlinked _ _ Hpk Hu Hn) as [?|(b & ? & _)]; congruence.
    - apply not_true_is_false. rewrite idv_to_update_true.
      intros (Hu & Hn & Hva & Hpe).
      destruct (Hlinked _ _ Hpk Hu Hn) as [?|(b & ? & ?)]; congruence. }
  assert (idv_attach attempt_id user_id photo_id_name <$> table w = table w)
    as Hattach.
  { rewrite <- (list_fmap_id (table w)) at 2.
    apply list_fmap_ext. intros pk r Hpk. by apply (Hsame pk). }
  destruct (idv_run_found now attempt_id user_id st photo_id_name full_name w)
    as (info & -> & _).
  { rewrite select_nil. intros Hno. specialize (Hno _ _ Hpk0). simpl in Hno.
    apply not_true_iff_false in Hno. destruct Hno.
    by apply has_photo_id_name_true. }
  simpl. rewrite Hattach.
  assert (select (idv_to_update user_id attempt_id photo_id_name) (table w) = [])
    as ->.
  { apply select_nil. intros pk r Hpk. by apply (Hsame pk). }
  simpl. rewrite app_nil_r. split; [done|]. split; [|done].
  rewrite <- (list_fmap_id (table w)) at 2.
  apply list_fmap_ext. intros pk r Hpk.
  destruct (idv_set_status_cases attempt_id user_id st photo_id_name r)
    as [?|(Hu & Hn & Hpe & Hva & _)]; [done|].
  destruct (Hlinked _ _ Hpk Hu Hn) as [?|(b & ? & ?)]; congruence.
Qed.

Lemma idv_event_dropped_when_all_linked_witness :
  (∃ pk r, table (mkWorld one_user [jon_proctored 12] [] []) !! pk = Some r
           ∧ user r = 1 ∧ verified_name r = "Jonathan Doe") ∧
  (∀ pk r, table (mkWorld one_user [jon_proctored 12] [] []) !! pk = Some r →
           user r = 1 → verified_name r = "Jonathan Doe" →
           linked_elsewhere 123 r) ∧
  let out := idv_update_verified_name_task 20 123 1 APPROVED
               "Jonathan Doe" "Jon Doe"
               (mkWorld one_user [jon_proctored 12] [] []) in
  out.1 = inr tt
  ∧ table out.2 = table (mkWorld one_user [jon_proctored 12] [] [])
  ∧ post_save out.2 = post_save (mkWorld one_user [jon_proctored 12] [] [])
  ∧ auth_user out.2 = auth_user (mkWorld one_user [jon_proctored 12] [] []).
Proof.
  assert (∃ pk r, table (mkWorld one_user [jon_proctored 12] [] []) !! pk
                  = Some r ∧ user r = 1 ∧ verified_name r = "Jonathan Doe")
    as Hsome.
  { exists 0, (jon_proctored 12). done. }
  assert (∀ pk r, table (mkWorld one_user [jon_proctored 12] [] []) !! pk
                  = Some r → user r = 1 → verified_name r = "Jonathan Doe" →
                  linked_elsewhere 123 r) as Hlinked.
  { intros [|pk] r Hr; simpl in Hr; [|done].
    injection Hr as <-. intros _ _. by left. }
  split; [exact Hsome|]. split; [exact Hlinked|].
  exact (idv_event_dropped_when_all_linked 20 123 1 APPROVED "Jonathan Doe"
           "Jon Doe" (mkWorld one_user [jon_proctored 12] [] []) Hsome Hlinked).
Defined.

(** X5. A first IDV event for a name the user has no record of creates the
    record; a later event for the same attempt and name, with whatever status
    and at whatever time, sets the status of that record and adds nothing. *)
Theorem idv_create_then_update
    now now' attempt_id user_id st st' photo_id_name full_name full_name' w :
  (∀ pk r, table w !! pk = Some r → user r = user_id →
           verified_name r ≠ photo_id_name) →
  user_id ∈ auth_user w →
  let w1 := (idv_update_verified_name_task now attempt_id user_id st
               photo_id_name full_name w).2 in
  let out := idv_update_verified_name_task now' attempt_id user_id st'
               photo_id_name full_name' w1 in
  out.1 = inr tt ∧
  table out.2 = table w ++ [mkVerifiedName user_id photo_id_name full_name
                              (Some attempt_id) None st' now].
Proof.
  intros Hno Huser w1 out.
  assert (select (idv_verified_names user_id photo_id_name) (table w) = [])
    as Hnone.
  { apply select_nil. intros pk r Hpk. simpl.
    apply not_true_is_false. rewrite has_photo_id_name_true.
    intros [Hu Hn]. by eapply Hno. }
  assert (table w1 = table w ++ [mkVerifiedName user_id photo_id_name full_name
                                   (Some attempt_id) None st now]) as Ht1.
  { subst w1. rewrite idv_run_none by done.
    by rewrite bool_decide_eq_true_2. }
  subst out.
  destruct (idv_table_cases now' attempt_id user_id st' photo_id_name
              full_name' w1)
    as [(_ & -> & ->)|[(Hnone' & _)|(Hnone' & _)]].
  - split; [done|].
    rewrite Ht1, fmap_app, idv_step_no_match by done. f_equal. simpl.
    f_equal. by idv_step_eval (eq_refl user_id) (eq_refl photo_id_name).
  - rewrite Ht1 in Hnone'. by apply idv_found_after_create in Hnone'.
  - rewrite Ht1 in Hnone'. by apply idv_found_after_create in Hnone'.
Qed.

Lemma idv_create_then_update_witness :
  (∀ pk r, table (mkWorld one_user [] [] []) !! pk = Some r → user r = 1 →
           verified_name r ≠ "Jonathan Doe") ∧
  1 ∈ auth_user (mkWorld one_user [] [] []) ∧
  let w1 := (idv_update_verified_name_task 20 123 1 SUBMITTED
               "Jonathan Doe" "Jon Doe" (mkWorld one_user [] [] [])).2 in
  let out := idv_update_verified_name_task 30 123 1 APPROVED
               "Jonathan Doe" "Jon" w1 in
  out.1 = inr tt ∧
  table out.2 = table (mkWorld one_user [] [] [])
                ++ [mkVerifiedName 1 "Jonathan Doe" "Jon Doe"
                      (Some 123) None APPROVED 20].
Proof.
  assert (∀ pk r, table (mkWorld one_user [] [] []) !! pk = Some r →
                  user r = 1 → verified_name r ≠ "Jonathan Doe") as Hno.
  { by_rows. }
  assert (1 ∈ auth_user (mkWorld one_user [] [] [])) as Huser.
  { simpl. unfold one_user. apply list_elem_of_singleton. done. }
  split; [exact Hno|]. split; [exact Huser|].
  exact (idv_create_then_update 20 30 123 1 SUBMITTED APPROVED "Jonathan Doe"
           "Jon Doe" "Jon" (mkWorld one_user [] [] []) Hno Huser).
Defined.

(** X6. The IDV task logs at level ERROR exactly when it creates a record;
    every other record it logs is at level INFO. *)
Theorem idv_error_iff_created
    now attempt_id user_id st photo_id_name full_name w :
  let out := idv_update_verified_name_task now attempt_id user_id st
               photo_id_name full_name w in
  ∃ new, logged out.2 = logged w ++ new
    ∧ Forall (λ l : LogRecord, l.1 = INFO ∨ l.1 = ERROR) new
    ∧ ((∃ msg, (ERROR, msg) ∈ new)
       ↔ length (table out.2) = S (length (table w))).
Proof.
  intros out. subst out.
  destruct (decide (select (idv_verified_names user_id photo_id_name) (table w)
                    = [])) as [Hnone|Hfound].
  - rewrite idv_run_none by done.
    destruct (bool_decide (user_id ∈ auth_user w)); simpl.
    + eexists. split; [done|]. split; [repeat constructor; by right|].
      rewrite length_app. simpl. split; [lia|].
      intros _. eexists. apply elem_of_cons. right. apply list_elem_of_singleton.
      done.
    + eexists. split; [done|]. split; [repeat constructor; by left|].
      split; [|lia].
      intros (msg & Hin). apply list_elem_of_singleton in Hin. done.
  - destruct (idv_run_found now attempt_id user_id st photo_id_name full_name
                w Hfound) as (info & -> & Hinfo).
    simpl. exists info. split; [done|]. split.
    + eapply Forall_impl; [exact Hinfo|]. intros l Hl. by left.
    + rewrite !length_fmap. split; [|lia].
      intros (msg & Hin). rewrite Forall_forall in Hinfo.
      apply Hinfo in Hin. done.
Qed.

(** ** Further properties of the proctoring task *)

Lemma approved_head user_id (t : list VerifiedName) :
  (∃ pk r, t !! pk = Some r ∧ user r = user_id ∧ status r = APPROVED) →
  ∃ x, head (select (proctoring_approved user_id) t) = Some x.
Proof.
  intros (pk & r & Hpk & Hu & Hs).
  destruct (head (select (proctoring_approved user_id) t)) as [x|] eqn:Hhd;
    [by exists x|].
  rewrite head_select_None in Hhd. specialize (Hhd _ _ Hpk). simpl in Hhd.
  apply not_true_iff_false in Hhd. destruct Hhd. by apply is_approved_of_true.
Qed.

Lemma no_existing_head user_id attempt_id (t : list VerifiedName) :
  (∀ pk r, t !! pk = Some r → user r = user_id →
           proctored_exam_attempt_id r ≠ Some attempt_id) →
  head (select (proctoring_existing user_id attempt_id) t) = None.
Proof.
  intros Hnone. apply head_select_None. intros pk r Hpk. simpl.
  apply not_true_is_false. rewrite has_proctored_attempt_true.
  intros [Hu Ha]. by eapply Hnone.
Qed.



Lemma proctoring_noop_table now attempt_id user_id st full_name profile_name_ w :
  (∃ pk r, table w !! pk = Some r ∧ user r = user_id ∧ status r = APPROVED) →
  table (proctoring_update_verified_name_task now attempt_id user_id st
           full_name profile_name_ w).2 = table w.
Proof.
  intros Happroved. rewrite proctoring_run.
  destruct (approved_head _ _ Happroved) as (x & ->). simpl.
  by destruct (bool_decide (verified_name x.2 = full_name)).
Qed.

(** X9. Approval is final for proctoring: once the user has an APPROVED
    record, no sequence of proctoring events of that user, whatever their
    attempts, statuses and names, changes the table. *)
Theorem proctoring_approval_is_final user_id ops w :
  (∃ pk r, table w !! pk = Some r ∧ user r = user_id ∧ status r = APPROVED) →
  Forall (is_proctoring_event_of user_id) ops →
  table (perform_all ops w) = table w.
Proof.
  intros Happroved Hops. revert w Happroved.
  induction Hops as [|op ops Hop Hops IH]; intros w Happroved; [done|].
  destruct op as [| | | |now a u st full pn]; try done.
  simpl in Hop. subst u. simpl.
  assert (table (proctoring_update_verified_name_task now a user_id st full pn
                   w).2 = table w) as Hsame
    by (by apply proctoring_noop_table).
  rewrite IH; [done|]. by rewrite Hsame.
Qed.

Lemma proctoring_approval_is_final_witness :
  (∃ pk r, table (mkWorld one_user [jon; jon_approved] [] []) !! pk = Some r
           ∧ user r = 1 ∧ status r = APPROVED) ∧
  Forall (is_proctoring_event_of 1)
    [ProctoringEvent 20 456 1 DENIED "J. Doe" "Jon Doe";
     ProctoringEvent 30 457 1 SUBMITTED "Jonathan Doe" "Jon Doe"] ∧
  table (perform_all
           [ProctoringEvent 20 456 1 DENIED "J. Doe" "Jon Doe";
            ProctoringEvent 30 457 1 SUBMITTED "Jonathan Doe" "Jon Doe"]
           (mkWorld one_user [jon; jon_approved] [] []))
  = table (mkWorld one_user [jon; jon_approved] [] []).
Proof.
  assert (∃ pk r, table (mkWorld one_user [jon; jon_approved] [] []) !! pk
                  = Some r ∧ user r = 1 ∧ status r = APPROVED) as Happroved.
  { exists 1, jon_approved. done. }
  assert (Forall (is_proctoring_event_of 1)
            [ProctoringEvent 20 456 1 DENIED "J. Doe" "Jon Doe";
             ProctoringEvent 30 457 1 SUBMITTED "Jonathan Doe" "Jon Doe"])
    as Hops.
  { repeat constructor. }
  split; [exact Happroved|]. split; [exact Hops|].
  exact (proctoring_approval_is_final 1 _ _ Happroved Hops).
Defined.

(** X10. A first proctoring event of an attempt creates the record; as long as
    it did not approve, a later event of the same attempt, with whatever
    names and at whatever time, sets the status of that record and adds
    nothing. *)
Theorem proctoring_create_then_update
    now now' attempt_id user_id st st' full_name profile_name_
    full_name' profile_name' w :
  (∀ pk r, table w !! pk = Some r → user r = user_id → status r ≠ APPROVED) →
  (∀ pk r, table w !! pk = Some r → user r = user_id →
           proctored_exam_attempt_id r ≠ Some attempt_id) →
  full_name ≠ EmptyString → profile_name_ ≠ EmptyString →
  user_id ∈ auth_user w →
  st ≠ APPROVED →
  let w1 := (proctoring_update_verified_name_task now attempt_id user_id st
               full_name profile_name_ w).2 in
  let out := proctoring_update_verified_name_task now' attempt_id user_id st'
               full_name' profile_name' w1 in
  out.1 = inr tt ∧
  table out.2 = table w ++ [mkVerifiedName user_id full_name profile_name_
                              None (Some attempt_id) st' now].
Proof.
  intros Hno Hnone Hf Hp Huser Hst w1 out.
  set (new := mkVerifiedName user_id full_name profile_name_ None
                (Some attempt_id) st now).
  assert (table w1 = table w ++ [new]) as Ht1.
  { subst w1. rewrite proctoring_run, no_approved_head, no_existing_head
      by done.
    apply truthy_true in Hf. apply truthy_true in Hp. rewrite Hf, Hp. simpl.
    by rewrite bool_decide_eq_true_2. }
  subst out. rewrite proctoring_run, Ht1.
  rewrite no_approved_head.
  2:{ intros pk r Hpk Hu.
      apply lookup_app_Some in Hpk as [Hpk|[_ Hpk]]; [by eapply Hno|].
      apply list_lookup_singleton_Some in Hpk as [_ <-]. done. }
  destruct (existing_attempt_head user_id attempt_id (table w ++ [new]))
    as (x & -> & Hx & Hq & _).
  { exists (length (table w)), new.
    by rewrite list_lookup_middle. }
  apply has_proctored_attempt_true in Hq as [Hu Ha].
  apply lookup_app_Some in Hx as [Hx|[Hge Hx]]; [by destruct (Hnone _ _ Hx)|].
  apply list_lookup_singleton_Some in Hx as [Hpk Hnew].
  simpl. split; [done|].
  rewrite insert_app_r_alt by done. rewrite Hpk, <- Hnew. done.
Qed.

Lemma proctoring_create_then_update_witness :
  (∀ pk r, table (mkWorld one_user [jon] [] []) !! pk = Some r → user r = 1 →
           status r ≠ APPROVED) ∧
  (∀ pk r, table (mkWorld one_user [jon] [] []) !! pk = Some r → user r = 1 →
           proctored_exam_attempt_id r ≠ Some 456) ∧
  "Jonathan Doe" ≠ EmptyString ∧ "Jon Doe" ≠ EmptyString ∧
  1 ∈ auth_user (mkWorld one_user [jon] [] []) ∧
  SUBMITTED ≠ APPROVED ∧
  let w1 := (proctoring_update_verified_name_task 20 456 1 SUBMITTED
               "Jonathan Doe" "Jon Doe" (mkWorld one_user [jon] [] [])).2 in
  let out := proctoring_update_verified_name_task 30 456 1 APPROVED
               EmptyString EmptyString w1 in
  out.1 = inr tt ∧
  table out.2 = table (mkWorld one_user [jon] [] [])
                ++ [mkVerifiedName 1 "Jonathan Doe" "Jon Doe"
                      None (Some 456) APPROVED 20].
Proof.
  assert (∀ pk r, table (mkWorld one_user [jon] [] []) !! pk = Some r →
                  user r = 1 → status r ≠ APPROVED) as Hno.
  { by_rows. }
  assert (∀ pk r, table (mkWorld one_user [jon] [] []) !! pk = Some r →
                  user r = 1 → proctored_exam_attempt_id r ≠ Some 456)
    as Hnone.
  { by_rows. }
  assert ("Jonathan Doe" ≠ EmptyString) as Hf by discriminate.
  assert ("Jon Doe" ≠ EmptyString) as Hp by discriminate.
  assert (1 ∈ auth_user (mkWorld one_user [jon] [] [])) as Huser.
  { simpl. unfold one_user. apply list_elem_of_singleton. done. }
  assert (SUBMITTED ≠ APPROVED) as Hst by discriminate.
  split; [exact Hno|]. split; [exact Hnone|]. split; [exact Hf|].
  split; [exact Hp|]. split; [exact Huser|]. split; [exact Hst|].
  exact (proctoring_create_then_update 20 30 456 1 SUBMITTED APPROVED
           "Jonathan Doe" "Jon Doe" EmptyString EmptyString
           (mkWorld one_user [jon] [] []) Hno Hnone Hf Hp Huser Hst).
Defined.

(** X11. The proctoring task keeps the table free of empty names: when every
    record has a non-empty [verified_name] and [profile_name] before, so has
    every record afterwards, the created one included. *)
Theorem proctoring_preserves_nonempty_names
    now attempt_id user_id st full_name profile_name_ w :
  Forall names_nonempty (table w) →
  Forall names_nonempty
    (table (proctoring_update_verified_name_task now attempt_id user_id st
              full_name profile_name_ w).2).
Proof.
  intros Hw. rewrite proctoring_run.
  destruct (head (select (proctoring_approved user_id) (table w))) as [x|].
  { simpl. by destruct (bool_decide (verified_name x.2 = full_name)). }
  destruct (head (select (proctoring_existing user_id attempt_id) (table w)))
    as [x|] eqn:Hhd.
  { simpl. apply head_select_Some in Hhd as [Hx _]; [|done].
    apply Forall_insert; [done|].
    rewrite Forall_lookup in Hw. by apply (Hw _ _ Hx). }
  destruct (truthy full_name && truthy profile_name_) eqn:Hnames; [|done].
  apply andb_true_iff in Hnames as [Hf Hp].
  destruct (bool_decide (user_id ∈ auth_user w)); simpl; [|done].
  apply Forall_app. split; [done|]. apply Forall_singleton.
  split; simpl; by apply truthy_true.
Qed.

Lemma proctoring_preserves_nonempty_names_witness :
  Forall names_nonempty (table (mkWorld one_user [jon] [] [])) ∧
  Forall names_nonempty
    (table (proctoring_update_verified_name_task 20 456 1 SUBMITTED
              "Jonathan Doe" "Jon Doe" (mkWorld one_user [jon] [] [])).2).
Proof.
  assert (Forall names_nonempty (table (mkWorld one_user [jon] [] []))) as Hw.
  { simpl. repeat constructor; discriminate. }
  split; [exact Hw|].
  exact (proctoring_preserves_nonempty_names 20 456 1 SUBMITTED "Jonathan Doe"
           "Jon Doe" (mkWorld one_user [jon] [] []) Hw).
Defined.

(** X12. The proctoring task logs at most one record, and it either complains
    or writes, never both: with no log record, a WARNING or an ERROR, the
    table is as before and nothing was saved; with an INFO record, exactly
    one record was saved. *)
Theorem proctoring_complains_or_writes
    now attempt_id user_id st full_name profile_name_ w :
  let out := proctoring_update_verified_name_task now attempt_id user_id st
               full_name profile_name_ w in
  ∃ new, logged out.2 = logged w ++ new ∧
    ((table out.2 = table w ∧ post_save out.2 = post_save w
      ∧ (new = [] ∨ ∃ msg, new = [(WARNING, msg)] ∨ new = [(ERROR, msg)]))
     ∨ (∃ msg sg, new = [(INFO, msg)] ∧ post_save out.2 = post_save w ++ [sg])).
Proof.
  intros out. subst out. rewrite proctoring_run.
  destruct (head (select (proctoring_approved user_id) (table w))) as [x|].
  { simpl. destruct (bool_decide (verified_name x.2 = full_name)); simpl.
    - exists []. rewrite app_nil_r. split; [done|]. left. by repeat split; try left.
    - eexists. split; [done|]. left. repeat split; try done.
      right. eexists. by left. }
  destruct (head (select (proctoring_existing user_id attempt_id) (table w)))
    as [x|].
  { simpl. eexists. split; [done|]. right. by do 2 eexists. }
  destruct (truthy full_name && truthy profile_name_).
  2:{ simpl. eexists. split; [done|]. left. repeat split; try done.
      right. eexists. by right. }
  destruct (bool_decide (user_id ∈ auth_user w)); simpl.
  - eexists. split; [done|]. right. by do 2 eexists.
  - exists []. rewrite app_nil_r. split; [done|]. left. by repeat split; try left.
Qed.

(** ** Properties of both tasks *)

(** X13. Neither task deletes a record or touches the User table, and one
    event adds at most one record. *)
Theorem tasks_add_at_most_one_record :
  (∀ now attempt_id user_id st photo_id_name full_name w,
     let out := idv_update_verified_name_task now attempt_id user_id st
                  photo_id_name full_name w in
     auth_user out.2 = auth_user w
     ∧ length (table w) ≤ length (table out.2) ≤ S (length (table w))) ∧
  (∀ now attempt_id user_id st full_name profile_name_ w,
     let out := proctoring_update_verified_name_task now attempt_id user_id st
                  full_name profile_name_ w in
     auth_user out.2 = auth_user w
     ∧ length (table w) ≤ length (table out.2) ≤ S (length (table w))).
Proof.
  split.
  - intros now attempt_id user_id st photo_id_name full_name w out. subst out.
    split; [apply idv_auth_user|].
    destruct (idv_table_cases now attempt_id user_id st photo_id_name
                full_name w)
      as [(_ & _ & ->)|[(_ & _ & _ & ->)|(_ & _ & _ & ->)]].
    + rewrite length_fmap. lia.
    + rewrite length_app. simpl. lia.
    + lia.
  - intros now attempt_id user_id st full_name profile_name_ w out. subst out.
    rewrite proctoring_run.
    destruct (head (select (proctoring_approved user_id) (table w))) as [x|].
    { simpl. destruct (bool_decide (verified_name x.2 = full_name)); simpl;
        (split; [done|lia]). }
    destruct (head (select (proctoring_existing user_id attempt_id) (table w)))
      as [x|].
    { simpl. rewrite length_insert. split; [done|lia]. }
    destruct (truthy full_name && truthy profile_name_);
      [|simpl; split; [done|lia]].
    destruct (bool_decide (user_id ∈ auth_user w)); simpl;
      [|split; [done|lia]].
    rewrite length_app. simpl. split; [done|lia].
Qed.

(** X14. The two tasks keep to their own kind of attempt: the IDV task never
    changes a record that has a proctored attempt id, and the proctoring task
    never changes a record that has none. *)
Theorem tasks_keep_to_their_attempts :
  (∀ now attempt_id user_id st photo_id_name full_name w pk r,
     table w !! pk = Some r → proctored_exam_attempt_id r ≠ None →
     table (idv_update_verified_name_task now attempt_id user_id st
              photo_id_name full_name w).2 !! pk = Some r) ∧
  (∀ now attempt_id user_id st full_name profile_name_ w pk r,
     table w !! pk = Some r → proctored_exam_attempt_id r = None →
     table (proctoring_update_verified_name_task now attempt_id user_id st
              full_name profile_name_ w).2 !! pk = Some r).
Proof.
  split.
  - intros now attempt_id user_id st photo_id_name full_name w pk r Hpk Hpe.
    destruct (idv_table_cases now attempt_id user_id st photo_id_name
                full_name w)
      as [(_ & _ & ->)|[(_ & _ & _ & ->)|(_ & _ & _ & ->)]]; [| |done].
    + rewrite list_lookup_fmap, Hpk. simpl. f_equal.
      by destruct (idv_step_spec attempt_id user_id st photo_id_name r)
        as [?|(_ & _ & ? & _)].
    + by rewrite lookup_app_l by (by eapply lookup_lt_Some).
  - intros now attempt_id user_id st full_name profile_name_ w pk r Hpk Hpe.
    rewrite proctoring_run.
    destruct (head (select (proctoring_approved user_id) (table w))) as [x|].
    { simpl. by destruct (bool_decide (verified_name x.2 = full_name)). }
    destruct (head (select (proctoring_existing user_id attempt_id) (table w)))
      as [x|] eqn:Hhd.
    { apply head_select_Some in Hhd as (Hx & Hq & _); [|done].
      apply has_proctored_attempt_true in Hq as [_ Ha]. simpl.
      rewrite list_lookup_insert_ne; [done|].
      intros <-. congruence. }
    destruct (truthy full_name && truthy profile_name_); [|done].
    destruct (bool_decide (user_id ∈ auth_user w)); simpl; [|done].
    by rewrite lookup_app_l by (by eapply lookup_lt_Some).
Qed.

Lemma tasks_keep_to_their_attempts_witness :
  table (mkWorld one_user [jon; jon_proctored 12] [] []) !! 1
  = Some (jon_proctored 12) ∧
  proctored_exam_attempt_id (jon_proctored 12) ≠ None ∧
  table (idv_update_verified_name_task 20 123 1 APPROVED "Jonathan Doe"
           "Jon Doe" (mkWorld one_user [jon; jon_proctored 12] [] [])).2 !! 1
  = Some (jon_proctored 12) ∧
  table (mkWorld one_user [jon; jon_proctored 12] [] []) !! 0 = Some jon ∧
  proctored_exam_attempt_id jon = None ∧
  table (proctoring_update_verified_name_task 20 456 1 DENIED "Jonathan Doe"
           "Jon Doe" (mkWorld one_user [jon; jon_proctored 12] [] [])).2 !! 0
  = Some jon.
Proof.
  destruct tasks_keep_to_their_attempts as [Hidv Hproctoring].
  assert (table (mkWorld one_user [jon; jon_proctored 12] [] []) !! 1
          = Some (jon_proctored 12)) as H1 by reflexivity.
  assert (proctored_exam_attempt_id (jon_proctored 12) ≠ None) as Hpe1
    by discriminate.
  assert (table (mkWorld one_user [jon; jon_proctored 12] [] []) !! 0
          = Some jon) as H0 by reflexivity.
  assert (proctored_exam_attempt_id jon = None) as Hpe0 by reflexivity.
  split; [exact H1|]. split; [exact Hpe1|].
  split; [exact (Hidv 20 123 1 APPROVED "Jonathan Doe" "Jon Doe" _ 1 _ H1 Hpe1)|].
  split; [exact H0|]. split; [exact Hpe0|].
  exact (Hproctoring 20 456 1 DENIED "Jonathan Doe" "Jon Doe" _ 0 _ H0 Hpe0).
Defined.

(** ** Further properties of the API *)

Lemma first_newest_cases p w :
  let q := order_by_created_desc (objects_filter p) in
  (head (select q (table w)) = None
   ∧ ∀ pk r, table w !! pk = Some r → p r = false)
  ∨ (∃ x, head (select q (table w)) = Some x ∧ most_recent p (table w) x.1 x.2).
Proof.
  intros q. destruct (head (select q (table w))) as [x|] eqn:Hhd.
  - right. exists x. split; [done|]. by apply (head_select_Some q) in Hhd.
  - left. split; [done|]. by apply (head_select_None q).
Qed.

(** X15. [update_verified_name_status] (modelled from the specification, as
    the tests call it): without an attempt id it raises
    [VerifiedNameAttemptIdNotGiven], with both [VerifiedNameMultipleAttemptIds],
    with one that no record of the user carries [VerifiedNameDoesNotExist],
    and in each case the world is as before; otherwise it sets the status of
    a most recently created record of the user with that attempt id (the
    record at that primary key then has the given status and its other
    fields as before), saves it, and changes nothing else. *)
Theorem update_verified_name_status_outcomes user_ st va pe w :
  let out := api.update_verified_name_status user_ st va pe w in
  let carries := carries_attempt user_ va pe in
  (va = None ∧ pe = None → out = (inl VerifiedNameAttemptIdNotGiven, w)) ∧
  (is_Some va ∧ is_Some pe → out = (inl VerifiedNameMultipleAttemptIds, w)) ∧
  (is_Some va ∧ pe = None ∨ va = None ∧ is_Some pe →
   (∀ pk r, table w !! pk = Some r → carries r = false) →
   out = (inl VerifiedNameDoesNotExist, w)) ∧
  (is_Some va ∧ pe = None ∨ va = None ∧ is_Some pe →
   (∃ pk r, table w !! pk = Some r ∧ carries r = true) →
   ∃ pk r, most_recent carries (table w) pk r ∧
     out = (inr tt,
            mkWorld (auth_user w)
              (<[pk := mkVerifiedName (user r) (verified_name r)
                         (profile_name r) (verification_attempt_id r)
                         (proctored_exam_attempt_id r) st (created r)]>
                 (table w))
              (logged w) (post_save w ++ [(pk, false)]))
     ∧ ∃ r', table out.2 !! pk = Some r' ∧ status r' = st).
Proof.
  intros out carries. subst out carries.
  unfold api.update_verified_name_status, carries_attempt.
  destruct va as [a|], pe as [b|]; cbn beta iota.
  - split; [by intros [? _]|]. split; [done|].
    split; by intros [[_ ?]|[? _]].
  - unfold bind. rewrite first_newest_run.
    split; [by intros [? _]|]. split; [by intros [_ [? ?]]|].
    destruct (first_newest_cases
                (λ r, bool_decide (user r = user_)
                      && eq_id (verification_attempt_id r) a) w)
      as [[-> Hno]|(x & -> & Hx)].
    + split; [done|]. intros _ (pk & r & Hpk & Hc).
      by rewrite (Hno _ _ Hpk) in Hc.
    + split.
      * intros _ Hno. destruct Hx as (Hx & Hc & _).
        by rewrite (Hno _ _ Hx) in Hc.
      * intros _ _. exists x.1, x.2. split; [done|]. split; [done|].
        simpl. eexists. destruct Hx as (Hx & _).
        split; [apply list_lookup_insert_eq; by eapply lookup_lt_Some|done].
  - unfold bind. rewrite first_newest_run.
    split; [by intros [_ ?]|]. split; [by intros [[? ?] _]|].
    destruct (first_newest_cases
                (λ r, bool_decide (user r = user_)
                      && eq_id (proctored_exam_attempt_id r) b) w)
      as [[-> Hno]|(x & -> & Hx)].
    + split; [done|]. intros _ (pk & r & Hpk & Hc).
      by rewrite (Hno _ _ Hpk) in Hc.
    + split.
      * intros _ Hno. destruct Hx as (Hx & Hc & _).
        by rewrite (Hno _ _ Hx) in Hc.
      * intros _ _. exists x.1, x.2. split; [done|]. split; [done|].
        simpl. eexists. destruct Hx as (Hx & _).
        split; [apply list_lookup_insert_eq; by eapply lookup_lt_Some|done].
  - split; [done|]. split; [by intros [[? ?] _]|].
    split; by intros [[[? ?] _]|[_ [? ?]]].
Qed.

Lemma update_verified_name_status_outcomes_witness :
  let w := mkWorld one_user [jon; jon_proctored 12] [] [] in
  (@None nat = None ∧ @None nat = None) ∧
  api.update_verified_name_status 1 DENIED None None w
  = (inl VerifiedNameAttemptIdNotGiven, w) ∧
  (is_Some (Some 123) ∧ is_Some (Some 456)) ∧
  api.update_verified_name_status 1 DENIED (Some 123) (Some 456) w
  = (inl VerifiedNameMultipleAttemptIds, w) ∧
  (is_Some (Some 123) ∧ @None nat = None ∨ Some 123 = None ∧ is_Some (@None nat)) ∧
  (∀ pk r, table w !! pk = Some r → carries_attempt 1 (Some 123) None r = false) ∧
  api.update_verified_name_status 1 DENIED (Some 123) None w
  = (inl VerifiedNameDoesNotExist, w) ∧
  (is_Some (@None nat) ∧ Some 456 = None ∨ @None nat = None ∧ is_Some (Some 456)) ∧
  (∃ pk r, table w !! pk = Some r ∧ carries_attempt 1 None (Some 456) r = true) ∧
  ∃ pk r, most_recent (carries_attempt 1 None (Some 456)) (table w) pk r ∧
    api.update_verified_name_status 1 DENIED None (Some 456) w
    = (inr tt,
       mkWorld (auth_user w)
         (<[pk := mkVerifiedName (user r) (verified_name r)
                    (profile_name r) (verification_attempt_id r)
                    (proctored_exam_attempt_id r) DENIED (created r)]>
            (table w))
         (logged w) (post_save w ++ [(pk, false)]))
    ∧ ∃ r', table (api.update_verified_name_status 1 DENIED None (Some 456)
                     w).2 !! pk = Some r'
            ∧ status r' = DENIED.
Proof.
  intros w.
  assert (@None nat = None ∧ @None nat = None) as Hnone by done.
  assert (is_Some (Some 123) ∧ is_Some (Some 456)) as Hboth.
  { split; eexists; reflexivity. }
  assert (is_Some (Some 123) ∧ @None nat = None
          ∨ Some 123 = None ∧ is_Some (@None nat)) as Hva.
  { left. split; [eexists|]; reflexivity. }
  assert (∀ pk r, table w !! pk = Some r →
                  carries_attempt 1 (Some 123) None r = false) as Hmissing.
  { subst w. by_rows. }
  assert (is_Some (@None nat) ∧ Some 456 = None
          ∨ @None nat = None ∧ is_Some (Some 456)) as Hpe.
  { right. split; [|eexists]; reflexivity. }
  assert (∃ pk r, table w !! pk = Some r
                  ∧ carries_attempt 1 None (Some 456) r = true) as Hfound.
  { exists 1, (jon_proctored 12). done. }
  split; [exact Hnone|]. split.
  { exact (proj1 (update_verified_name_status_outcomes 1 DENIED None None w)
             Hnone). }
  split; [exact Hboth|]. split.
  { exact (proj1 (proj2 (update_verified_name_status_outcomes 1 DENIED
                           (Some 123) (Some 456) w)) Hboth). }
  split; [exact Hva|]. split; [exact Hmissing|]. split.
  { exact (proj1 (proj2 (proj2 (update_verified_name_status_outcomes 1 DENIED
                                  (Some 123) None w))) Hva Hmissing). }
  split; [exact Hpe|]. split; [exact Hfound|].
  exact (proj2 (proj2 (proj2 (update_verified_name_status_outcomes 1 DENIED
                                None (Some 456) w))) Hpe Hfound).
Defined.

(** X16. [get_verified_name] (modelled from the specification, as the tests
    call it) reads only: the world is as before. It returns nothing exactly
    when the user has no record (no APPROVED record, with
    [is_verified_only]); otherwise it returns one of those records, and no
    other of them was created later. *)
Theorem get_verified_name_most_recent user_ is_verified_only w :
  let out := api.get_verified_name user_ is_verified_only w in
  out.2 = w ∧
  ∃ found, out.1 = inr found ∧
    (found = None
     ↔ ∀ pk r, table w !! pk = Some r → ¬ wanted_by user_ is_verified_only r) ∧
    (∀ x, found = Some x →
       table w !! x.1 = Some x.2 ∧ wanted_by user_ is_verified_only x.2
       ∧ ∀ pk r, table w !! pk = Some r → wanted_by user_ is_verified_only r →
                 created r ≤ created x.2).
Proof.
  intros out. subst out. unfold api.get_verified_name.
  rewrite first_newest_run. simpl. split; [done|].
  set (p := λ r, bool_decide (user r = user_)
                 && (negb is_verified_only || bool_decide (status r = APPROVED))).
  assert (∀ r, p r = true ↔ wanted_by user_ is_verified_only r) as Hp.
  { intros r. unfold p, wanted_by.
    rewrite andb_true_iff, orb_true_iff, negb_true_iff, !bool_decide_eq_true.
    destruct is_verified_only; intuition congruence. }
  eexists. split; [done|].
  destruct (first_newest_cases p w) as [[Hhd Hno]|(x & Hhd & Hx & Hq & Hmax)];
    fold p; rewrite Hhd.
  - split; [|done]. split; [|done].
    intros _ pk r Hpk Hw. apply Hp in Hw. by rewrite (Hno _ _ Hpk) in Hw.
  - split.
    + split; [done|]. intros Hno. destruct (Hno _ _ Hx). by apply Hp.
    + intros ? [= <-]. split; [done|]. split; [by apply Hp|].
      intros pk r Hpk Hw. apply (Hmax _ _ Hpk). by apply Hp.
Qed.

Lemma create_verified_name_ok now u vn pn va pe st w :
  ¬ (is_Some va ∧ is_Some pe) → vn ≠ EmptyString → pn ≠ EmptyString →
  api.create_verified_name now u vn pn va pe st w
  = (inr tt,
     mkWorld (auth_user w) (table w ++ [mkVerifiedName u vn pn va pe st now])
       (logged w) (post_save w ++ [(length (table w), true)])).
Proof.
  intros Hids Hvn Hpn. unfold api.create_verified_name.
  destruct (negb (is_none va) && negb (is_none pe)) eqn:Hboth.
  { destruct Hids. by destruct va, pe. }
  by rewrite !bool_decide_eq_false_2 by done.
Qed.

(** X17. What [create_verified_name] stores, [get_verified_name] returns
    (both modelled from the specification, as the tests call them): after a
    successful creation at a time later than all records of the user, the
    most recent record of the user is the new one, with the fields given;
    with [is_verified_only] this holds when the new record is APPROVED. *)
Theorem create_then_get_verified_name
    now u vn pn va pe st is_verified_only w :
  ¬ (is_Some va ∧ is_Some pe) → vn ≠ EmptyString → pn ≠ EmptyString →
  (∀ pk r, table w !! pk = Some r → user r = u → created r < now) →
  (is_verified_only = true → st = APPROVED) →
  let w1 := (api.create_verified_name now u vn pn va pe st w).2 in
  (api.get_verified_name u is_verified_only w1).1
  = inr (Some (length (table w), mkVerifiedName u vn pn va pe st now)).
Proof.
  intros Hids Hvn Hpn Hlater Hflag w1. subst w1.
  rewrite create_verified_name_ok by done.
  unfold api.get_verified_name. rewrite first_newest_run. simpl.
  set (new := mkVerifiedName u vn pn va pe st now).
  set (p := λ r, bool_decide (user r = u)
                 && (negb is_verified_only || bool_decide (status r = APPROVED))).
  assert (p new = true) as Hnew.
  { unfold p. simpl. rewrite bool_decide_eq_true_2 by done. simpl.
    destruct is_verified_only; [|done]. simpl.
    by rewrite bool_decide_eq_true_2 by auto. }
  assert ((table w ++ [new]) !! length (table w) = Some new) as Hat
    by (by rewrite list_lookup_middle).
  destruct (first_newest_cases p
              (mkWorld (auth_user w) (table w ++ [new]) (logged w)
                 (post_save w ++ [(length (table w), true)])))
    as [[_ Hno]|(x & Hhd & Hx & Hq & Hmax)]; simpl in *.
  { by rewrite (Hno _ _ Hat) in Hnew. }
  fold p. rewrite Hhd. do 2 f_equal.
  apply lookup_app_Some in Hx as [Hx|[Hge Hx]].
  - specialize (Hmax _ _ Hat Hnew). simpl in Hmax.
    apply andb_true_iff in Hq as [Hu _]. apply bool_decide_eq_true in Hu.
    specialize (Hlater _ _ Hx Hu). lia.
  - apply list_lookup_singleton_Some in Hx as [Hpk Hx].
    destruct x as [pk r]. simpl in *. subst r. f_equal. lia.
Qed.

Lemma create_then_get_verified_name_witness :
  ¬ (is_Some (@None nat) ∧ is_Some (@None nat)) ∧
  "Jonathan Doe" ≠ EmptyString ∧ "Jon Doe" ≠ EmptyString ∧
  (∀ pk r, table (mkWorld one_user [jon] [] []) !! pk = Some r → user r = 1 →
           created r < 20) ∧
  (false = true → PENDING = APPROVED) ∧
  (api.get_verified_name 1 false
     (api.create_verified_name 20 1 "Jonathan Doe" "Jon Doe" None None PENDING
        (mkWorld one_user [jon] [] [])).2).1
  = inr (Some (length (table (mkWorld one_user [jon] [] [])),
               mkVerifiedName 1 "Jonathan Doe" "Jon Doe" None None PENDING 20)).
Proof.
  assert (¬ (is_Some (@None nat) ∧ is_Some (@None nat))) as Hids.
  { intros [[x Hx] _]. discriminate Hx. }
  assert ("Jonathan Doe" ≠ EmptyString) as Hvn by discriminate.
  assert ("Jon Doe" ≠ EmptyString) as Hpn by discriminate.
  assert (∀ pk r, table (mkWorld one_user [jon] [] []) !! pk = Some r →
                  user r = 1 → created r < 20) as Hlater.
  { intros [|pk] r Hr; simpl in Hr; [|done].
    injection Hr as <-. simpl. lia. }
  assert (false = true → PENDING = APPROVED) as Hflag by discriminate.
  split; [exact Hids|]. split; [exact Hvn|]. split; [exact Hpn|].
  split; [exact Hlater|]. split; [exact Hflag|].
  exact (create_then_get_verified_name 20 1 "Jonathan Doe" "Jon Doe" None None
           PENDING false (mkWorld one_user [jon] [] [])
           Hids Hvn Hpn Hlater Hflag).
Defined.

